(** * Touch: gesture recognition and click suppression

    A shallow embedding of the [Touch] component
    (packages/vkui, components/Touch): the gesture record kept in
    [gesture.current], the did-slide flag kept in [didSlide.current], and
    the four event handlers [startHandler], [onMove], [onEnd] and
    [postGestureClick], together with the helper [handle] that dispatches
    the consumer callbacks.

    Modelling conventions.
    - A JavaScript number that is read from an event is an integer ([Z]);
      arithmetic on a missing ([undefined]) operand gives [NaN], and every
      comparison with [NaN] is false.
    - An optional field of an object is an [option]; [None] is [undefined].
    - The two refs are the two fields of [State]; a handler is a function
      from the state to a result that carries the new state and the trace
      of everything the handler did to the outside world (consumer
      callbacks, [stopPropagation], [preventDefault], listener
      subscriptions), in the order in which it did it.
    - [gesture.current.startT.getTime()] raises a [TypeError] when [startT]
      is missing; the result [Throw] records the state and the trace at the
      point of the exception.
    - [Date.now()] is read from the event being handled ([now]): one
      handler run is treated as instantaneous. *)

From Stdlib Require Import ZArith List Bool String Lia Sorted.
Import ListNotations.
Open Scope Z_scope.

(** ** JavaScript values *)

Module JS.

Inductive num : Type :=
| Num (z : Z)
| NaN.

(** [undefined] used as an operand of an arithmetic operator. *)
Definition toNumber (o : option num) : num :=
  match o with
  | Some n => n
  | None => NaN
  end.

Definition sub (a b : num) : num :=
  match a, b with
  | Num x, Num y => Num (x - y)
  | _, _ => NaN
  end.

(** [Math.abs] *)
Definition abs (a : num) : num :=
  match a with
  | Num x => Num (Z.abs x)
  | NaN => NaN
  end.

(** [a >= b] *)
Definition geb (a b : num) : bool :=
  match a, b with
  | Num x, Num y => x >=? y
  | _, _ => false
  end.

(** [a > b] *)
Definition gtb (a b : num) : bool :=
  match a, b with
  | Num x, Num y => x >? y
  | _, _ => false
  end.

(** Truthiness of an optional boolean: [undefined] and [false] are falsy. *)
Definition truthy (o : option bool) : bool :=
  match o with
  | Some true => true
  | _ => false
  end.

End JS.

(** ** Data *)

(** What the handlers read from a raw input event: the coordinates given by
    [coordX] and [coordY], the length of [e.touches] when the event has one,
    [e.type], and the clock at the time the event is handled. *)
Record VKUITouchEvent : Type := {
  coordX : Z;
  coordY : Z;
  touches : option nat;
  type : string;
  now : Z
}.

(** What [postGestureClick] reads from a click event: whether
    [e.target.closest('a')] finds an enclosing link. *)
Record ClickEvent : Type := {
  closestA : bool
}.

(** [interface Gesture] *)
Record Gesture : Type := {
  startX : option JS.num;
  startY : option JS.num;
  startT : option Z;
  duration : option Z;
  isPressed : option bool;
  isY : option bool;
  isX : option bool;
  isSlideX : option bool;
  isSlideY : option bool;
  isSlide : option bool;
  shiftX : option JS.num;
  shiftY : option JS.num;
  shiftXAbs : option JS.num;
  shiftYAbs : option JS.num
}.

(** The object [{}]. *)
Definition emptyGesture : Gesture :=
  {| startX := None; startY := None; startT := None; duration := None;
     isPressed := None; isY := None; isX := None;
     isSlideX := None; isSlideY := None; isSlide := None;
     shiftX := None; shiftY := None; shiftXAbs := None; shiftYAbs := None |}.

(** The consumer's gesture callbacks. *)
Inductive Handler : Type :=
| OnStart | OnStartX | OnStartY
| OnMove | OnMoveX | OnMoveY
| OnEnd | OnEndX | OnEndY.

(** The props the handlers use.  A callback prop is [true] when the consumer
    supplied it; [_onMove] and [_onEnd] are the props [onMove] and [onEnd]
    under the names the component gives them. *)
Record TouchProps : Type := {
  onStart : bool;
  onStartX : bool;
  onStartY : bool;
  _onMove : bool;
  onMoveX : bool;
  onMoveY : bool;
  onLeave : bool;
  _onEnd : bool;
  onEndX : bool;
  onEndY : bool;
  onClickCapture : bool;
  slideThreshold : Z;
  noSlideClick : bool;
  stopPropagation : bool
}.

(** The argument of [subscribe]. *)
Inductive Target : Type :=
| Document
| Null.

(** What a handler does to the outside world. *)
Inductive Effect : Type :=
| StopPropagation (e : VKUITouchEvent)
| Call (cb : Handler) (g : Gesture) (e : VKUITouchEvent)
| Leave (e : VKUITouchEvent)
| Subscribe (el : Target)
| ClickPreventDefault (c : ClickEvent)
| ClickStopPropagation (c : ClickEvent)
| ClickForward (c : ClickEvent).

(** The two refs of the component. *)
Record State : Type := {
  gesture : Gesture;
  didSlide : option bool
}.

(** [useRef(false)] and [useRef({})] *)
Definition initial : State :=
  {| gesture := emptyGesture; didSlide := Some false |}.

(** ** Handlers as state transformers with a trace *)

Inductive Result (A : Type) : Type :=
| Ok (a : A) (s : State) (tr : list Effect)
| Throw (s : State) (tr : list Effect).

Arguments Ok {A} a s tr.
Arguments Throw {A} s tr.

Definition M (A : Type) : Type := State -> Result A.

Definition ret {A} (a : A) : M A := fun s => Ok a s [].

Definition bind {A B} (m : M A) (k : A -> M B) : M B :=
  fun s =>
    match m s with
    | Ok a s1 tr1 =>
        match k a s1 with
        | Ok b s2 tr2 => Ok b s2 (tr1 ++ tr2)
        | Throw s2 tr2 => Throw s2 (tr1 ++ tr2)
        end
    | Throw s1 tr1 => Throw s1 tr1
    end.

Notation "x <- m ;; k" := (bind m (fun x => k))
  (at level 61, m at next level, right associativity).
Notation "m ;; k" := (bind m (fun _ => k))
  (at level 61, right associativity).

Definition getGesture : M Gesture := fun s => Ok (gesture s) s [].
Definition getDidSlide : M (option bool) := fun s => Ok (didSlide s) s [].
Definition setGesture (g : Gesture) : M unit :=
  fun s => Ok tt {| gesture := g; didSlide := didSlide s |} [].
Definition setDidSlide (b : option bool) : M unit :=
  fun s => Ok tt {| gesture := gesture s; didSlide := b |} [].
Definition emit (x : Effect) : M unit := fun s => Ok tt s [x].
Definition throw {A} : M A := fun s => Throw s [].

(** [c && m] used as a statement *)
Definition when (c : bool) (m : M unit) : M unit :=
  if c then m else ret tt.

(** [xs.forEach(f)] *)
Fixpoint forEach {A} (xs : list A) (f : A -> M unit) : M unit :=
  match xs with
  | [] => ret tt
  | x :: xs' => f x ;; forEach xs' f
  end.

Definition stateOf {A} (r : Result A) : State :=
  match r with
  | Ok _ s _ => s
  | Throw s _ => s
  end.

Definition traceOf {A} (r : Result A) : list Effect :=
  match r with
  | Ok _ _ tr => tr
  | Throw _ tr => tr
  end.

Definition returned {A} (r : Result A) : bool :=
  match r with
  | Ok _ _ _ => true
  | Throw _ _ => false
  end.

(** ** The component *)

Section Touch.

Variable props : TouchProps.

(** [touchEnabled()] of lib/touch: whether the environment has touch
    input.  It does not change while the component lives. *)
Variable touchEnabled : bool.

(** A callback prop used as a value: the handler when the consumer
    supplied it, [undefined] otherwise. *)
Definition prop (supplied : bool) (cb : Handler) : option Handler :=
  if supplied then Some cb else None.

(** [flag && handler] as an element of a handler list: a falsy value
    unless the flag is truthy and the handler was supplied. *)
Definition guarded (flag : option bool) (h : option Handler)
  : option Handler :=
  if JS.truthy flag then h else None.

(** [{ ...gesture.current, duration, originalEvent: e }]: the gesture
    fields of the object given to a callback ([originalEvent] is the
    event argument of [Call]). *)
Definition snapshot (g : Gesture) (d : Z) : Gesture :=
  {| startX := startX g; startY := startY g; startT := startT g;
     duration := Some d;
     isPressed := isPressed g; isY := isY g; isX := isX g;
     isSlideX := isSlideX g; isSlideY := isSlideY g; isSlide := isSlide g;
     shiftX := shiftX g; shiftY := shiftY g;
     shiftXAbs := shiftXAbs g; shiftYAbs := shiftYAbs g |}.

Definition handle (e : VKUITouchEvent) (handers : list (option Handler))
  : M unit :=
  when (stopPropagation props) (emit (StopPropagation e)) ;;
  forEach handers (fun cb =>
    g <- getGesture ;;
    match startT g with
    | None => throw
    | Some t0 =>
        let duration := now e - t0 in
        match cb with
        | Some h => emit (Call h (snapshot g duration) e)
        | None => ret tt
        end
    end).

(** [listeners.forEach((l) => l.add(el))]: the move, end and cancel
    listeners are bound to [el] (unbound for [null]). *)
Definition subscribe (el : Target) : M unit :=
  emit (Subscribe el).

Definition startHandler (e : VKUITouchEvent) : M unit :=
  setGesture
    {| startX := Some (JS.Num (coordX e));
       startY := Some (JS.Num (coordY e));
       startT := Some (now e);
       duration := None;
       isPressed := Some true;
       isY := None; isX := None;
       isSlideX := None; isSlideY := None; isSlide := None;
       shiftX := None; shiftY := None;
       shiftXAbs := None; shiftYAbs := None |} ;;
  handle e [prop (onStart props) OnStart;
            prop (onStartX props) OnStartX;
            prop (onStartY props) OnStartY] ;;
  when (negb touchEnabled) (subscribe Document).

Definition onEnd (e : VKUITouchEvent) : M unit :=
  g <- getGesture ;;
  when (JS.truthy (isPressed g))
    (handle e [prop (_onEnd props) OnEnd;
               guarded (isSlideY g) (prop (onEndY props) OnEndY);
               guarded (isSlideX g) (prop (onEndX props) OnEndX)]) ;;
  setDidSlide (isSlide g) ;;
  setGesture emptyGesture ;;
  when (String.eqb (type e) "touchend" || String.eqb (type e) "touchcancel")
    (when (onLeave props) (emit (Leave e))) ;;
  when (negb touchEnabled) (subscribe Null).

(** [Object.assign(gesture.current, { isY, isX, isSlideX, isSlideY,
    isSlide })] *)
Definition assignLock (g : Gesture)
    (willBeY willBeX willBeSlidedX willBeSlidedY : bool) : Gesture :=
  {| startX := startX g; startY := startY g; startT := startT g;
     duration := duration g;
     isPressed := isPressed g;
     isY := Some willBeY;
     isX := Some willBeX;
     isSlideX := Some willBeSlidedX;
     isSlideY := Some willBeSlidedY;
     isSlide := Some (willBeSlidedX || willBeSlidedY);
     shiftX := shiftX g; shiftY := shiftY g;
     shiftXAbs := shiftXAbs g; shiftYAbs := shiftYAbs g |}.

(** [Object.assign(gesture.current, { shiftX, shiftY, shiftXAbs,
    shiftYAbs })] *)
Definition assignShift (g : Gesture) (sX sY sXAbs sYAbs : JS.num)
  : Gesture :=
  {| startX := startX g; startY := startY g; startT := startT g;
     duration := duration g;
     isPressed := isPressed g; isY := isY g; isX := isX g;
     isSlideX := isSlideX g; isSlideY := isSlideY g; isSlide := isSlide g;
     shiftX := Some sX; shiftY := Some sY;
     shiftXAbs := Some sXAbs; shiftYAbs := Some sYAbs |}.

(** [!!e.touches && e.touches.length > 1] *)
Definition multiTouch (e : VKUITouchEvent) : bool :=
  match touches e with
  | Some n => (1 <? n)%nat
  | None => false
  end.

Definition onMove (e : VKUITouchEvent) : M unit :=
  g0 <- getGesture ;;
  if JS.truthy (isPressed g0) then
    let shiftX := JS.sub (JS.Num (coordX e)) (JS.toNumber (startX g0)) in
    let shiftY := JS.sub (JS.Num (coordY e)) (JS.toNumber (startY g0)) in
    let shiftXAbs := JS.abs shiftX in
    let shiftYAbs := JS.abs shiftY in
    if multiTouch e then onEnd e
    else
      when (negb (JS.truthy (isX g0)) && negb (JS.truthy (isY g0)))
        (let willBeX :=
           JS.geb shiftXAbs (JS.Num (slideThreshold props))
           && JS.gtb shiftXAbs shiftYAbs in
         let willBeY :=
           JS.geb shiftYAbs (JS.Num (slideThreshold props))
           && JS.gtb shiftYAbs shiftXAbs in
         let willBeSlidedX :=
           willBeX && (onMoveX props || _onMove props) in
         let willBeSlidedY :=
           willBeY && (onMoveY props || _onMove props) in
         g <- getGesture ;;
         setGesture
           (assignLock g willBeY willBeX willBeSlidedX willBeSlidedY)) ;;
      g1 <- getGesture ;;
      when (JS.truthy (isSlide g1))
        (setGesture (assignShift g1 shiftX shiftY shiftXAbs shiftYAbs) ;;
         g2 <- getGesture ;;
         handle e [prop (_onMove props) OnMove;
                   guarded (isSlideX g2) (prop (onMoveX props) OnMoveX);
                   guarded (isSlideY g2) (prop (onMoveY props) OnMoveY)])
  else ret tt.

Definition postGestureClick (c : ClickEvent) : M unit :=
  d <- getDidSlide ;;
  if negb (JS.truthy d) then
    when (onClickCapture props) (emit (ClickForward c))
  else
    when (closestA c) (emit (ClickPreventDefault c)) ;;
    (if noSlideClick props then emit (ClickStopPropagation c)
     else when (onClickCapture props) (emit (ClickForward c))) ;;
    setDidSlide (Some false).

(** ** Sequences of input signals *)

Inductive Signal : Type :=
| Start (e : VKUITouchEvent)
| Move (e : VKUITouchEvent)
| End (e : VKUITouchEvent)
| Click (c : ClickEvent).

Definition step (i : Signal) : M unit :=
  match i with
  | Start e => startHandler e
  | Move e => onMove e
  | End e => onEnd e
  | Click c => postGestureClick c
  end.

(** The state after a sequence of signals.  An exception in one listener
    does not stop later events from being delivered. *)
Fixpoint run (s : State) (sigs : list Signal) : State :=
  match sigs with
  | [] => s
  | i :: rest => run (stateOf (step i s)) rest
  end.

(** Everything done to the outside world over a sequence of signals. *)
Fixpoint runTrace (s : State) (sigs : list Signal) : list Effect :=
  match sigs with
  | [] => []
  | i :: rest => traceOf (step i s) ++ runTrace (stateOf (step i s)) rest
  end.

End Touch.

(** ** Notions used to state the properties *)

(** The gesture record right after a start signal [e]. *)
Definition pressedAt (e : VKUITouchEvent) : Gesture :=
  {| startX := Some (JS.Num (coordX e));
     startY := Some (JS.Num (coordY e));
     startT := Some (now e);
     duration := None;
     isPressed := Some true;
     isY := None; isX := None;
     isSlideX := None; isSlideY := None; isSlide := None;
     shiftX := None; shiftY := None;
     shiftXAbs := None; shiftYAbs := None |}.

(** The calls [handle] makes for a handler list when the gesture is [g] and
    started at time [t0]: one call per handler that is present, in the
    order of the list. *)
Definition callsFor (g : Gesture) (e : VKUITouchEvent) (t0 : Z)
    (handers : list (option Handler)) : list Effect :=
  flat_map
    (fun cb =>
       match cb with
       | Some h => [Call h (snapshot g (now e - t0)) e]
       | None => []
       end)
    handers.

Definition stopTrace (props : TouchProps) (e : VKUITouchEvent)
  : list Effect :=
  if stopPropagation props then [StopPropagation e] else [].

(** The tail of every run of [onEnd]: the synthesized leave and the
    release of the document listeners. *)
Definition endTail (props : TouchProps) (touchEnabled : bool)
    (e : VKUITouchEvent) : list Effect :=
  (if (String.eqb (type e) "touchend" || String.eqb (type e) "touchcancel")
      && onLeave props
   then [Leave e] else [])
  ++ (if touchEnabled then [] else [Subscribe Null]).

(** Displacement of a sample [e] from the start [e0], and the axis-lock
    conditions: the absolute displacement on one axis is at least the
    threshold and strictly greater than on the other axis. *)
Definition dX (e0 e : VKUITouchEvent) : Z := coordX e - coordX e0.
Definition dY (e0 e : VKUITouchEvent) : Z := coordY e - coordY e0.

Definition lockX (props : TouchProps) (e0 e : VKUITouchEvent) : bool :=
  (Z.abs (dX e0 e) >=? slideThreshold props)
  && (Z.abs (dX e0 e) >? Z.abs (dY e0 e)).

Definition lockY (props : TouchProps) (e0 e : VKUITouchEvent) : bool :=
  (Z.abs (dY e0 e) >=? slideThreshold props)
  && (Z.abs (dY e0 e) >? Z.abs (dX e0 e)).

(** The consumer callbacks invoked in a trace, in order, and the gesture
    objects they were given. *)
Definition called (tr : list Effect) : list Handler :=
  flat_map (fun x => match x with Call h _ _ => [h] | _ => [] end) tr.

Definition delivered (tr : list Effect) : list (Handler * Gesture) :=
  flat_map (fun x => match x with Call h g _ => [(h, g)] | _ => [] end) tr.

(** Position of a callback in the order generic, X, Y. *)
Definition axisRank (h : Handler) : nat :=
  match h with
  | OnStart | OnMove | OnEnd => 0
  | OnStartX | OnMoveX | OnEndX => 1
  | OnStartY | OnMoveY | OnEndY => 2
  end.

Definition isMoveHandler (h : Handler) : bool :=
  match h with
  | OnMove | OnMoveX | OnMoveY => true
  | _ => false
  end.

Definition isEndHandler (h : Handler) : bool :=
  match h with
  | OnEnd | OnEndX | OnEndY => true
  | _ => false
  end.

(** The gesture record after a single-touch move sample [e] taken while
    pressed: the lock decision when no axis is locked yet, then the shifts
    when the gesture is a slide. *)
Definition moved (props : TouchProps) (g : Gesture) (e : VKUITouchEvent)
  : Gesture :=
  let sX := JS.sub (JS.Num (coordX e)) (JS.toNumber (startX g)) in
  let sY := JS.sub (JS.Num (coordY e)) (JS.toNumber (startY g)) in
  let wX := JS.geb (JS.abs sX) (JS.Num (slideThreshold props))
            && JS.gtb (JS.abs sX) (JS.abs sY) in
  let wY := JS.geb (JS.abs sY) (JS.Num (slideThreshold props))
            && JS.gtb (JS.abs sY) (JS.abs sX) in
  let g1 :=
    if negb (JS.truthy (isX g)) && negb (JS.truthy (isY g))
    then assignLock g wY wX
           (wX && (onMoveX props || _onMove props))
           (wY && (onMoveY props || _onMove props))
    else g in
  if JS.truthy (isSlide g1)
  then assignShift g1 sX sY (JS.abs sX) (JS.abs sY)
  else g1.

(** What the consumer sees of that move sample. *)
Definition movedTrace (props : TouchProps) (g : Gesture)
    (e : VKUITouchEvent) (t0 : Z) : list Effect :=
  let g2 := moved props g e in
  if JS.truthy (isSlide g2)
  then stopTrace props e
       ++ callsFor g2 e t0
            [prop (_onMove props) OnMove;
             guarded (isSlideX g2) (prop (onMoveX props) OnMoveX);
             guarded (isSlideY g2) (prop (onMoveY props) OnMoveY)]
  else [].

(** The gesture record after a start at [e0] and at least one move sample,
    none of which met a lock condition. *)
Definition undecided (e0 : VKUITouchEvent) : Gesture :=
  assignLock (pressedAt e0) false false false false.

(** No axis is locked yet in a gesture started at [e0]. *)
Definition Unlocked (e0 : VKUITouchEvent) (g : Gesture) : Prop :=
  g = pressedAt e0 \/ g = undecided e0.

(** The gesture record after the move sample [e] of a gesture started at
    [e0] in which no axis was locked before [e]. *)
Definition decided (props : TouchProps) (e0 e : VKUITouchEvent) : Gesture :=
  let sldX := lockX props e0 e && (onMoveX props || _onMove props) in
  let sldY := lockY props e0 e && (onMoveY props || _onMove props) in
  let gl :=
    assignLock (pressedAt e0) (lockY props e0 e) (lockX props e0 e)
      sldX sldY in
  if sldX || sldY
  then assignShift gl (JS.Num (dX e0 e)) (JS.Num (dY e0 e))
         (JS.Num (Z.abs (dX e0 e))) (JS.Num (Z.abs (dY e0 e)))
  else gl.

(** The gesture record after the single-touch move samples [ms], taken in
    order while pressed. *)
Definition track (props : TouchProps) (g : Gesture)
    (ms : list VKUITouchEvent) : Gesture :=
  fold_left (moved props) ms g.

Definition singleTouch (e : VKUITouchEvent) : Prop := multiTouch e = false.

Definition noLock (props : TouchProps) (e0 e : VKUITouchEvent) : Prop :=
  lockX props e0 e = false /\ lockY props e0 e = false.

(** The order generic, X, Y on callbacks. *)
Definition before (a b : Handler) : Prop := (axisRank a < axisRank b)%nat.

(** The handlers of a handler list that are present, in order. *)
Definition present (hs : list (option Handler)) : list Handler :=
  flat_map (fun cb => match cb with Some h => [h] | None => [] end) hs.

(** An axis-specific move or end callback is given a gesture whose slide
    flag for that axis is set. *)
Definition axisGated (h : Handler) (g : Gesture) : Prop :=
  match h with
  | OnMoveX | OnEndX => JS.truthy (isSlideX g) = true
  | OnMoveY | OnEndY => JS.truthy (isSlideY g) = true
  | _ => True
  end.

(** ** Sample inputs *)

(** A consumer that supplies every callback, with the default threshold,
    and that asks for clicks after a slide to be swallowed. *)
Definition sampleProps : TouchProps :=
  {| onStart := true; onStartX := true; onStartY := true;
     _onMove := true; onMoveX := true; onMoveY := true;
     onLeave := true;
     _onEnd := true; onEndX := true; onEndY := true;
     onClickCapture := true;
     slideThreshold := 5;
     noSlideClick := true;
     stopPropagation := false |}.

(** A touch event of type [ty] at [(x, y)] with [n] active touch points,
    handled at time [t]. *)
Definition touch (ty : string) (x y : Z) (n : nat) (t : Z)
  : VKUITouchEvent :=
  {| coordX := x; coordY := y; touches := Some n; type := ty; now := t |}.

(** ** What holds of every gesture record the component can hold *)

Record GestureInv (props : TouchProps) (g : Gesture) : Prop := {
  inv_startT :
    JS.truthy (isPressed g) = true -> exists t0, startT g = Some t0;
  inv_axes :
    JS.truthy (isX g) && JS.truthy (isY g) = false;
  inv_slideX :
    JS.truthy (isSlideX g) = true ->
    JS.truthy (isX g) = true /\ onMoveX props || _onMove props = true;
  inv_slideY :
    JS.truthy (isSlideY g) = true ->
    JS.truthy (isY g) = true /\ onMoveY props || _onMove props = true;
  inv_slide :
    JS.truthy (isSlide g)
    = JS.truthy (isSlideX g) || JS.truthy (isSlideY g);
  inv_shift :
    JS.truthy (isSlide g) = false ->
    shiftX g = None /\ shiftY g = None
    /\ shiftXAbs g = None /\ shiftYAbs g = None
}.

(** ** Expected calls and payloads *)

(** The callback [h] when the consumer supplied it. *)
Definition supplied (b : bool) (h : Handler) : list Handler :=
  if b then [h] else [].

(** The callbacks expected of a start: generic, X, Y. *)
Definition startCalls (props : TouchProps) : list Handler :=
  supplied (onStart props) OnStart
  ++ supplied (onStartX props) OnStartX
  ++ supplied (onStartY props) OnStartY.

(** The callbacks expected of a move sample that leaves the gesture [g]:
    none unless [g] is a slide, else generic, X when the X axis slides, Y
    when the Y axis slides. *)
Definition moveCalls (props : TouchProps) (g : Gesture) : list Handler :=
  if JS.truthy (isSlide g)
  then supplied (_onMove props) OnMove
       ++ (if JS.truthy (isSlideX g)
           then supplied (onMoveX props) OnMoveX else [])
       ++ (if JS.truthy (isSlideY g)
           then supplied (onMoveY props) OnMoveY else [])
  else [].

(** The callbacks expected of the end of the gesture [g]: generic, X when
    the X axis slides, Y when the Y axis slides. *)
Definition endCalls (props : TouchProps) (g : Gesture) : list Handler :=
  supplied (_onEnd props) OnEnd
  ++ (if JS.truthy (isSlideX g) then supplied (onEndX props) OnEndX else [])
  ++ (if JS.truthy (isSlideY g) then supplied (onEndY props) OnEndY else []).

(** The callbacks expected of one signal in the state [s], in the order in
    which they are expected. *)
Definition expectedCalls (props : TouchProps) (s : State) (i : Signal)
  : list Handler :=
  match i with
  | Start _ => startCalls props
  | Move e =>
      if JS.truthy (isPressed (gesture s))
      then if multiTouch e
           then endCalls props (gesture s)
           else moveCalls props (moved props (gesture s) e)
      else []
  | End _ =>
      if JS.truthy (isPressed (gesture s))
      then endCalls props (gesture s)
      else []
  | Click _ => []
  end.

(** The gesture object [g] given to a callback carries every field of the
    record [g0] as it is, and the duration [d]. *)
Definition carries (g0 : Gesture) (d : Z) (g : Gesture) : Prop :=
  startX g = startX g0 /\ startY g = startY g0 /\ startT g = startT g0
  /\ duration g = Some d
  /\ isPressed g = isPressed g0
  /\ isX g = isX g0 /\ isY g = isY g0
  /\ isSlideX g = isSlideX g0 /\ isSlideY g = isSlideY g0
  /\ isSlide g = isSlide g0
  /\ shiftX g = shiftX g0 /\ shiftY g = shiftY g0
  /\ shiftXAbs g = shiftXAbs g0 /\ shiftYAbs g = shiftYAbs g0.

(** ** Further notions about the handlers *)

(** What a gesture record holds while pressed, and how its shift fields
    hang together. *)
Record RecordInv (g : Gesture) : Prop := {
  inv_start :
    JS.truthy (isPressed g) = true ->
    exists sx sy t0,
      startX g = Some (JS.Num sx) /\ startY g = Some (JS.Num sy)
      /\ startT g = Some t0;
  inv_abs :
    shiftXAbs g = option_map JS.abs (shiftX g)
    /\ shiftYAbs g = option_map JS.abs (shiftY g);
  inv_present :
    JS.truthy (isSlide g) = true ->
    exists x y, shiftX g = Some (JS.Num x) /\ shiftY g = Some (JS.Num y)
}.

(** The raw events on which a trace called [stopPropagation], the events
    given to [onLeave], and the arguments of [subscribe], each in order. *)
Definition stopped (tr : list Effect) : list VKUITouchEvent :=
  flat_map (fun x => match x with StopPropagation e => [e] | _ => [] end) tr.

Definition leaves (tr : list Effect) : list VKUITouchEvent :=
  flat_map (fun x => match x with Leave e => [e] | _ => [] end) tr.

Definition subscriptions (tr : list Effect) : list Target :=
  flat_map (fun x => match x with Subscribe el => [el] | _ => [] end) tr.

(** [e.type === 'touchend' || e.type === 'touchcancel'] *)
Definition isTouchEnd (e : VKUITouchEvent) : bool :=
  String.eqb (type e) "touchend" || String.eqb (type e) "touchcancel".

(** The signal runs the end handler: an end or cancel signal, or a
    multi-touch move sample while pressed. *)
Definition endsGesture (s : State) (i : Signal) : bool :=
  match i with
  | End _ => true
  | Move e => JS.truthy (isPressed (gesture s)) && multiTouch e
  | _ => false
  end.

(** The signal reaches [handle]: every start, every end while pressed, and
    a single-touch move sample while pressed after which the gesture is a
    slide. *)
Definition dispatches (props : TouchProps) (s : State) (i : Signal) : bool :=
  match i with
  | Start _ => true
  | Move e =>
      JS.truthy (isPressed (gesture s))
      && (multiTouch e || JS.truthy (isSlide (moved props (gesture s) e)))
  | End _ => JS.truthy (isPressed (gesture s))
  | Click _ => false
  end.

(** The raw event of a signal. *)
Definition eventOf (i : Signal) : list VKUITouchEvent :=
  match i with
  | Start e | Move e | End e => [e]
  | Click _ => []
  end.

(** What every callback is given: a pressed gesture with numeric start
    coordinates and a duration counted from its start time. *)
Definition payloadOk (x : Effect) : Prop :=
  match x with
  | Call _ g e =>
      JS.truthy (isPressed g) = true
      /\ exists sx sy t0,
           startX g = Some (JS.Num sx) /\ startY g = Some (JS.Num sy)
           /\ startT g = Some t0 /\ duration g = Some (now e - t0)
  | _ => True
  end.

(** What a move callback is given: the shifts of the event it is called
    for, measured from the start of the gesture. *)
Definition movePayloadOk (x : Effect) : Prop :=
  match x with
  | Call h g e =>
      isMoveHandler h = true ->
      JS.truthy (isSlide g) = true
      /\ exists sx sy,
           startX g = Some (JS.Num sx) /\ startY g = Some (JS.Num sy)
           /\ shiftX g = Some (JS.Num (coordX e - sx))
           /\ shiftY g = Some (JS.Num (coordY e - sy))
           /\ shiftXAbs g = Some (JS.Num (Z.abs (coordX e - sx)))
           /\ shiftYAbs g = Some (JS.Num (Z.abs (coordY e - sy)))
  | _ => True
  end.

(** The consumer supplied a move callback for the axis of [h]. *)
Definition axisRegistered (props : TouchProps) (h : Handler) : Prop :=
  match h with
  | OnMoveX | OnEndX => onMoveX props || _onMove props = true
  | OnMoveY | OnEndY => onMoveY props || _onMove props = true
  | _ => True
  end.

(** ** ImageBase: the load state of the image *)

(** What the load handlers of [ImageBase] use of its props: the two
    sources, whether [fallbackIcon] is a valid element, and whether the
    consumer supplied [onLoad] and [onError]. *)
Record ImageBaseProps : Type := {
  src : option string;
  srcSet : option string;
  fallbackIconValid : bool;
  onLoad : bool;
  onError : bool
}.

(** Truthiness of an optional string: [undefined] and the empty string are
    falsy. *)
Definition truthyString (o : option string) : bool :=
  match o with
  | Some EmptyString => false
  | Some _ => true
  | None => false
  end.

(** [const hasSrc = src || srcSet] used as a condition *)
Definition hasSrc (p : ImageBaseProps) : bool :=
  truthyString (src p) || truthyString (srcSet p).

(** The two [useState] cells. *)
Record ImageState : Type := {
  loaded : bool;
  failed : bool
}.

(** [useState(false)] twice *)
Definition imageInitial : ImageState :=
  {| loaded := false; failed := false |}.

Inductive ImageEffect : Type :=
| CallOnLoad
| CallOnError
| DispatchLoad.

(** The component between two events: the state cells, and the [loaded]
    read by the render that created the handlers now in place.  A handler
    is a closure of its render: [handleImageLoad] tests the [loaded] of
    that render, not the cell as it is when the event arrives. *)
Record ImageView : Type := {
  cells : ImageState;
  seenLoaded : bool
}.

(** After the first render. *)
Definition imageMounted : ImageView :=
  {| cells := imageInitial; seenLoaded := false |}.

(** [handleImageLoad]; [seen] is the [loaded] of its render, [st] the
    cells it writes to. *)
Definition handleImageLoad (p : ImageBaseProps) (seen : bool)
    (st : ImageState) : ImageState * list ImageEffect :=
  if seen then (st, [])
  else ({| loaded := true; failed := false |},
        if onLoad p then [CallOnLoad] else []).

Definition handleImageError (p : ImageBaseProps) (st : ImageState)
  : ImageState * list ImageEffect :=
  ({| loaded := false; failed := true |},
   if onError p then [CallOnError] else []).

(** [(failed || !hasSrc) && React.isValidElement(fallbackIconProp)] *)
Definition needShowFallbackIcon (p : ImageBaseProps) (st : ImageState)
  : bool :=
  (failed st || negb (hasSrc p)) && fallbackIconValid p.

(** What happens to the component: a load or an error event of the [img]
    element, or a render, which commits the cells and creates the handlers
    anew.  Any number of events can be handled between two renders. *)
Inductive ImageEvent : Type :=
| ImageLoad
| ImageError
| ImageRender.

(** The [img] element, and with it the two handlers, is rendered only when
    [hasSrc] holds: [{hasSrc && <img onLoad=... onError=... />}]. *)
Definition imageStep (p : ImageBaseProps) (v : ImageView) (ev : ImageEvent)
  : ImageView * list ImageEffect :=
  match ev with
  | ImageRender =>
      ({| cells := cells v; seenLoaded := loaded (cells v) |}, [])
  | ImageLoad =>
      if hasSrc p then
        let '(st, tr) := handleImageLoad p (seenLoaded v) (cells v) in
        ({| cells := st; seenLoaded := seenLoaded v |}, tr)
      else (v, [])
  | ImageError =>
      if hasSrc p then
        let '(st, tr) := handleImageError p (cells v) in
        ({| cells := st; seenLoaded := seenLoaded v |}, tr)
      else (v, [])
  end.

Fixpoint imageRun (p : ImageBaseProps) (v : ImageView)
    (evs : list ImageEvent) : ImageView * list ImageEffect :=
  match evs with
  | [] => (v, [])
  | ev :: rest =>
      let '(v1, tr1) := imageStep p v ev in
      let '(v2, tr2) := imageRun p v1 rest in
      (v2, tr1 ++ tr2)
  end.

(** The events [evs] with a render after each of them. *)
Definition committed (evs : list ImageEvent) : list ImageEvent :=
  flat_map (fun ev => [ev; ImageRender]) evs.

(** What one run of the effect
    [dispatchLoadEventForAlreadyLoadedResourceIfReactInitializedLater]
    sees: whether [imgRef.current] is set, its [complete], and [loaded]. *)
Record EffectRun : Type := {
  imgPresent : bool;
  complete : bool;
  loadedNow : bool
}.

(** One run of the effect on the ref [isOnLoadStatusCheckedRef]. *)
Definition checkLoadStatus (checked : bool) (r : EffectRun)
  : bool * list ImageEffect :=
  if checked then (checked, [])
  else (true,
        if imgPresent r && complete r && negb (loadedNow r)
        then [DispatchLoad] else []).

Fixpoint checkLoadStatusRuns (checked : bool) (rs : list EffectRun)
  : bool * list ImageEffect :=
  match rs with
  | [] => (checked, [])
  | r :: rest =>
      let '(c1, tr1) := checkLoadStatus checked r in
      let '(c2, tr2) := checkLoadStatusRuns c1 rest in
      (c2, tr1 ++ tr2)
  end.

(** Counting in a trace of [ImageBase] and in a list of its events. *)
Definition isCallOnLoad (x : ImageEffect) : bool :=
  match x with
  | CallOnLoad => true
  | _ => false
  end.

Definition isImageError (ev : ImageEvent) : bool :=
  match ev with
  | ImageError => true
  | _ => false
  end.

(** ** The handlers in closed form *)

(** One step of a handler: run the first action of a sequence. *)
Ltac mstep :=
  unfold bind at 1;
  cbv beta iota delta [getGesture setGesture getDidSlide setDidSlide ret when];
  cbn [gesture didSlide].

Lemma handle_eq (props : TouchProps) (e : VKUITouchEvent)
    (hs : list (option Handler)) (s : State) (t0 : Z) :
  startT (gesture s) = Some t0 ->
  handle props e hs s
  = Ok tt s (stopTrace props e ++ callsFor (gesture s) e t0 hs).
Proof.
  intros Ht. unfold handle.
  match goal with
  | |- context [forEach hs ?f] =>
      assert (Hloop : forEach hs f s = Ok tt s (callsFor (gesture s) e t0 hs))
  end.
  { induction hs as [|cb hs IH]; [reflexivity|].
    cbn [forEach]. unfold bind at 1. unfold bind at 1.
    unfold getGesture at 1. rewrite Ht.
    destruct cb as [h|]; cbn; rewrite IH; reflexivity. }
  unfold bind at 1. unfold stopTrace, when.
  cbv beta iota delta [emit ret] in Hloop.
  destruct (stopPropagation props); cbv beta iota delta [emit ret];
    rewrite Hloop; reflexivity.
Qed.

Lemma startHandler_eq (props : TouchProps) (te : bool)
    (e : VKUITouchEvent) (s : State) :
  startHandler props te e s
  = Ok tt {| gesture := pressedAt e; didSlide := didSlide s |}
      (stopTrace props e
       ++ callsFor (pressedAt e) e (now e)
            [prop (onStart props) OnStart;
             prop (onStartX props) OnStartX;
             prop (onStartY props) OnStartY]
       ++ (if te then [] else [Subscribe Document])).
Proof.
  unfold startHandler. unfold bind at 1. cbn [setGesture].
  unfold bind at 1.
  rewrite (handle_eq props e _ _ (now e)) by reflexivity.
  cbn [gesture]. fold (pressedAt e).
  destruct te; cbn; rewrite ?app_nil_r, <- ?app_assoc; reflexivity.
Qed.

Lemma onEnd_pressed (props : TouchProps) (te : bool)
    (e : VKUITouchEvent) (s : State) (t0 : Z) :
  JS.truthy (isPressed (gesture s)) = true ->
  startT (gesture s) = Some t0 ->
  onEnd props te e s
  = Ok tt {| gesture := emptyGesture; didSlide := isSlide (gesture s) |}
      (stopTrace props e
       ++ callsFor (gesture s) e t0
            [prop (_onEnd props) OnEnd;
             guarded (isSlideY (gesture s)) (prop (onEndY props) OnEndY);
             guarded (isSlideX (gesture s)) (prop (onEndX props) OnEndX)]
       ++ endTail props te e).
Proof.
  intros Hp Ht. unfold onEnd. unfold bind at 1. cbn [getGesture].
  rewrite Hp. cbn [when]. unfold bind at 1.
  rewrite (handle_eq props e _ _ t0 Ht).
  unfold endTail.
  destruct (String.eqb (type e) "touchend" || String.eqb (type e) "touchcancel"),
    (onLeave props), te; cbn; rewrite ?app_nil_r, <- ?app_assoc; reflexivity.
Qed.

Lemma onEnd_idle (props : TouchProps) (te : bool)
    (e : VKUITouchEvent) (s : State) :
  JS.truthy (isPressed (gesture s)) = false ->
  onEnd props te e s
  = Ok tt {| gesture := emptyGesture; didSlide := isSlide (gesture s) |}
      (endTail props te e).
Proof.
  intros Hp. unfold onEnd. unfold bind at 1. cbn [getGesture].
  rewrite Hp. unfold endTail.
  destruct (String.eqb (type e) "touchend" || String.eqb (type e) "touchcancel"),
    (onLeave props), te; reflexivity.
Qed.

Lemma onMove_idle (props : TouchProps) (te : bool)
    (e : VKUITouchEvent) (s : State) :
  JS.truthy (isPressed (gesture s)) = false ->
  onMove props te e s = Ok tt s [].
Proof.
  intros Hp. unfold onMove. unfold bind at 1. cbn [getGesture].
  rewrite Hp. reflexivity.
Qed.

Lemma onMove_multi (props : TouchProps) (te : bool)
    (e : VKUITouchEvent) (s : State) :
  JS.truthy (isPressed (gesture s)) = true ->
  multiTouch e = true ->
  onMove props te e s = onEnd props te e s.
Proof.
  intros Hp Hm. unfold onMove. unfold bind at 1. cbn [getGesture].
  rewrite Hp, Hm.
  destruct (onEnd props te e s); cbn; reflexivity.
Qed.

Lemma onMove_single (props : TouchProps) (te : bool)
    (e : VKUITouchEvent) (s : State) (t0 : Z) :
  JS.truthy (isPressed (gesture s)) = true ->
  multiTouch e = false ->
  startT (gesture s) = Some t0 ->
  onMove props te e s
  = Ok tt {| gesture := moved props (gesture s) e; didSlide := didSlide s |}
      (movedTrace props (gesture s) e t0).
Proof.
  intros Hp Hm Ht. destruct s as [g d]. cbn [gesture didSlide] in *.
  unfold onMove. mstep. rewrite Hp, Hm. unfold movedTrace, moved.
  destruct (negb (JS.truthy (isX g)) && negb (JS.truthy (isY g))).
  - do 3 mstep.
    match goal with
    | |- context [JS.truthy (isSlide ?g1)] =>
        destruct (JS.truthy (isSlide g1)) eqn:Hs
    end.
    + cbn [assignShift isSlide]. rewrite Hs. do 2 mstep.
      rewrite (handle_eq props e _ _ t0) by exact Ht. reflexivity.
    + cbn [assignShift isSlide]. rewrite Hs. reflexivity.
  - do 2 mstep. destruct (JS.truthy (isSlide g)) eqn:Hs.
    + cbn [assignShift isSlide]. rewrite Hs. do 2 mstep.
      rewrite (handle_eq props e _ _ t0) by exact Ht. reflexivity.
    + rewrite Hs. reflexivity.
Qed.

Lemma postGestureClick_eq (props : TouchProps) (c : ClickEvent) (s : State) :
  postGestureClick props c s
  = if JS.truthy (didSlide s)
    then Ok tt {| gesture := gesture s; didSlide := Some false |}
           ((if closestA c then [ClickPreventDefault c] else [])
            ++ (if noSlideClick props then [ClickStopPropagation c]
                else if onClickCapture props then [ClickForward c] else []))
    else Ok tt s (if onClickCapture props then [ClickForward c] else []).
Proof.
  unfold postGestureClick. mstep.
  destruct (JS.truthy (didSlide s)); cbn [negb].
  - destruct (closestA c), (noSlideClick props), (onClickCapture props);
      reflexivity.
  - destruct (onClickCapture props); reflexivity.
Qed.

(** ** The invariant is kept *)

Lemma will_be_exclusive (a b t : JS.num) :
  (JS.geb a t && JS.gtb a b) && (JS.geb b t && JS.gtb b a) = false.
Proof.
  destruct a as [x|], b as [y|]; cbn;
    rewrite ?andb_false_r; try reflexivity.
  destruct (x >? y) eqn:Hxy; [|now rewrite andb_false_r].
  destruct (y >? x) eqn:Hyx; [|now rewrite !andb_false_r].
  apply Z.gtb_lt in Hxy, Hyx. lia.
Qed.

Lemma GestureInv_empty (props : TouchProps) : GestureInv props emptyGesture.
Proof. constructor; cbn; intuition discriminate. Qed.

Lemma GestureInv_pressedAt (props : TouchProps) (e : VKUITouchEvent) :
  GestureInv props (pressedAt e).
Proof. constructor; cbn; intuition (eauto; discriminate). Qed.

Lemma GestureInv_slide_locked (props : TouchProps) (g : Gesture) :
  GestureInv props g ->
  JS.truthy (isSlide g) = true ->
  negb (JS.truthy (isX g)) && negb (JS.truthy (isY g)) = false.
Proof.
  intros [_ _ HX HY HS _] Hs. rewrite HS in Hs.
  apply orb_true_iff in Hs. destruct Hs as [Hs|Hs].
  - destruct (HX Hs) as [-> _]. reflexivity.
  - destruct (HY Hs) as [-> _]. apply andb_false_r.
Qed.

Lemma GestureInv_moved (props : TouchProps) (g : Gesture)
    (e : VKUITouchEvent) :
  GestureInv props g -> GestureInv props (moved props g e).
Proof.
  intros Hg. pose proof (GestureInv_slide_locked props g Hg) as Hlk.
  destruct Hg as [HT HA HX HY HS HSh]. unfold moved.
  set (sX := JS.sub (JS.Num (coordX e)) (JS.toNumber (startX g))).
  set (sY := JS.sub (JS.Num (coordY e)) (JS.toNumber (startY g))).
  pose proof (will_be_exclusive (JS.abs sX) (JS.abs sY)
                (JS.Num (slideThreshold props))) as Hex.
  set (wX := JS.geb (JS.abs sX) (JS.Num (slideThreshold props))
             && JS.gtb (JS.abs sX) (JS.abs sY)) in *.
  set (wY := JS.geb (JS.abs sY) (JS.Num (slideThreshold props))
             && JS.gtb (JS.abs sY) (JS.abs sX)) in *.
  destruct (negb (JS.truthy (isX g)) && negb (JS.truthy (isY g))) eqn:Hu.
  - assert (Hns : JS.truthy (isSlide g) = false).
    { apply not_true_is_false. intros Hs. apply Hlk in Hs. discriminate. }
    specialize (HSh Hns).
    destruct wX, wY; try discriminate Hex;
      destruct (onMoveX props || _onMove props) eqn:HrX,
               (onMoveY props || _onMove props) eqn:HrY;
      cbn; constructor; cbn; try rewrite HrX; try rewrite HrY;
      intuition (try discriminate; auto).
  - destruct (JS.truthy (isSlide g)) eqn:Hs.
    + constructor; cbn; auto; [rewrite Hs; exact HS | congruence].
    + constructor; auto; rewrite Hs; assumption.
Qed.

Lemma GestureInv_exclusive (props : TouchProps) (g : Gesture) :
  GestureInv props g ->
  JS.truthy (isSlideX g) && JS.truthy (isSlideY g) = false.
Proof.
  intros [_ HA HX HY _ _].
  destruct (JS.truthy (isSlideX g)); [|reflexivity].
  destruct (JS.truthy (isSlideY g)); [|reflexivity].
  destruct (HX eq_refl) as [Hx _]. destruct (HY eq_refl) as [Hy _].
  rewrite Hx, Hy in HA. discriminate.
Qed.

(** On a record that satisfies the invariant no handler raises, and the
    record it leaves satisfies the invariant again. *)
Lemma step_inv (props : TouchProps) (te : bool) (i : Signal) (s : State) :
  GestureInv props (gesture s) ->
  GestureInv props (gesture (stateOf (step props te i s)))
  /\ returned (step props te i s) = true.
Proof.
  intros Hg. destruct i as [e|e|e|c]; cbn [step].
  - rewrite startHandler_eq. cbn. split; [apply GestureInv_pressedAt|reflexivity].
  - destruct (JS.truthy (isPressed (gesture s))) eqn:Hp.
    + destruct (inv_startT _ _ Hg Hp) as [t0 Ht].
      destruct (multiTouch e) eqn:Hm.
      * rewrite onMove_multi, (onEnd_pressed props te e s t0) by assumption.
        cbn. split; [apply GestureInv_empty|reflexivity].
      * rewrite (onMove_single props te e s t0) by assumption.
        cbn. split; [apply GestureInv_moved; assumption|reflexivity].
    + rewrite onMove_idle by assumption. cbn. split; [assumption|reflexivity].
  - destruct (JS.truthy (isPressed (gesture s))) eqn:Hp.
    + destruct (inv_startT _ _ Hg Hp) as [t0 Ht].
      rewrite (onEnd_pressed props te e s t0) by assumption.
      cbn. split; [apply GestureInv_empty|reflexivity].
    + rewrite onEnd_idle by assumption.
      cbn. split; [apply GestureInv_empty|reflexivity].
  - rewrite postGestureClick_eq.
    destruct (JS.truthy (didSlide s)); cbn; split; auto.
Qed.

Lemma run_inv (props : TouchProps) (te : bool) (sigs : list Signal) :
  forall s,
    GestureInv props (gesture s) ->
    GestureInv props (gesture (run props te s sigs)).
Proof.
  induction sigs as [|i rest IH]; intros s Hg; cbn [run]; [assumption|].
  apply IH. apply step_inv. assumption.
Qed.

Lemma reachable_inv (props : TouchProps) (te : bool) (sigs : list Signal) :
  GestureInv props (gesture (run props te initial sigs)).
Proof. apply run_inv. apply GestureInv_empty. Qed.

(** ** Reading a trace *)

Lemma called_app (a b : list Effect) : called (a ++ b) = called a ++ called b.
Proof. apply flat_map_app. Qed.

Lemma delivered_app (a b : list Effect) :
  delivered (a ++ b) = delivered a ++ delivered b.
Proof. apply flat_map_app. Qed.

Lemma called_callsFor (g : Gesture) (e : VKUITouchEvent) (t0 : Z)
    (hs : list (option Handler)) :
  called (callsFor g e t0 hs) = present hs.
Proof.
  induction hs as [|[h|] hs IH]; cbn; [reflexivity| |assumption].
  f_equal. exact IH.
Qed.

Lemma delivered_callsFor (g : Gesture) (e : VKUITouchEvent) (t0 : Z)
    (hs : list (option Handler)) :
  delivered (callsFor g e t0 hs)
  = map (fun h => (h, snapshot g (now e - t0))) (present hs).
Proof.
  induction hs as [|[h|] hs IH]; cbn; [reflexivity| |assumption].
  f_equal. exact IH.
Qed.

Lemma called_stopTrace (props : TouchProps) (e : VKUITouchEvent) :
  called (stopTrace props e) = [].
Proof. unfold stopTrace. destruct (stopPropagation props); reflexivity. Qed.

Lemma called_endTail (props : TouchProps) (te : bool) (e : VKUITouchEvent) :
  called (endTail props te e) = [].
Proof.
  unfold endTail.
  destruct ((String.eqb (type e) "touchend" || String.eqb (type e) "touchcancel")
            && onLeave props), te; reflexivity.
Qed.

Lemma delivered_stopTrace (props : TouchProps) (e : VKUITouchEvent) :
  delivered (stopTrace props e) = [].
Proof. unfold stopTrace. destruct (stopPropagation props); reflexivity. Qed.

Lemma delivered_endTail (props : TouchProps) (te : bool)
    (e : VKUITouchEvent) :
  delivered (endTail props te e) = [].
Proof.
  unfold endTail.
  destruct ((String.eqb (type e) "touchend" || String.eqb (type e) "touchcancel")
            && onLeave props), te; reflexivity.
Qed.

(** ** One gesture: a start followed by single-touch move samples *)

Lemma moved_frame (props : TouchProps) (g : Gesture) (e : VKUITouchEvent) :
  isPressed (moved props g e) = isPressed g
  /\ startT (moved props g e) = startT g
  /\ startX (moved props g e) = startX g
  /\ startY (moved props g e) = startY g.
Proof.
  unfold moved.
  destruct (negb (JS.truthy (isX g)) && negb (JS.truthy (isY g)));
    match goal with
    | |- context [JS.truthy (isSlide ?g1)] => destruct (JS.truthy (isSlide g1))
    end; cbn; auto.
Qed.

Lemma moved_unlocked (props : TouchProps) (e0 e : VKUITouchEvent)
    (g : Gesture) :
  Unlocked e0 g -> moved props g e = decided props e0 e.
Proof.
  intros [->| ->]; unfold moved, decided, lockX, lockY, dX, dY; cbn;
    destruct (_ && _ && _ || _ && _ && _); reflexivity.
Qed.

Lemma decided_noLock (props : TouchProps) (e0 e : VKUITouchEvent) :
  noLock props e0 e -> decided props e0 e = undecided e0.
Proof. intros [HX HY]. unfold decided. rewrite HX, HY. reflexivity. Qed.

Lemma lock_exclusive (props : TouchProps) (e0 e : VKUITouchEvent) :
  lockX props e0 e && lockY props e0 e = false.
Proof.
  exact (will_be_exclusive (JS.Num (Z.abs (dX e0 e)))
           (JS.Num (Z.abs (dY e0 e))) (JS.Num (slideThreshold props))).
Qed.

Lemma decided_axes (props : TouchProps) (e0 e : VKUITouchEvent) :
  isX (decided props e0 e) = Some (lockX props e0 e)
  /\ isY (decided props e0 e) = Some (lockY props e0 e).
Proof.
  unfold decided.
  destruct (_ && _ || _ && _); cbn; auto.
Qed.

Lemma moved_locked (props : TouchProps) (g : Gesture) (e : VKUITouchEvent) :
  JS.truthy (isX g) || JS.truthy (isY g) = true ->
  isX (moved props g e) = isX g /\ isY (moved props g e) = isY g.
Proof.
  intros Hl. unfold moved.
  replace (negb (JS.truthy (isX g)) && negb (JS.truthy (isY g))) with false
    by (destruct (JS.truthy (isX g)), (JS.truthy (isY g));
        reflexivity || discriminate).
  destruct (JS.truthy (isSlide g)); cbn; auto.
Qed.

Lemma moved_shift (props : TouchProps) (g : Gesture) (e : VKUITouchEvent) :
  JS.truthy (isSlide (moved props g e)) = true ->
  let sX := JS.sub (JS.Num (coordX e)) (JS.toNumber (startX g)) in
  let sY := JS.sub (JS.Num (coordY e)) (JS.toNumber (startY g)) in
  shiftX (moved props g e) = Some sX
  /\ shiftY (moved props g e) = Some sY
  /\ shiftXAbs (moved props g e) = Some (JS.abs sX)
  /\ shiftYAbs (moved props g e) = Some (JS.abs sY).
Proof.
  unfold moved.
  set (g1 := if negb (JS.truthy (isX g)) && negb (JS.truthy (isY g))
             then _ else g).
  destruct (JS.truthy (isSlide g1)) eqn:Hs; cbn; intros H; [auto|congruence].
Qed.

Lemma track_cons (props : TouchProps) (g : Gesture) (m : VKUITouchEvent)
    (ms : list VKUITouchEvent) :
  track props g (m :: ms) = track props (moved props g m) ms.
Proof. reflexivity. Qed.

Lemma track_frame (props : TouchProps) (ms : list VKUITouchEvent) :
  forall g,
    isPressed (track props g ms) = isPressed g
    /\ startT (track props g ms) = startT g
    /\ startX (track props g ms) = startX g
    /\ startY (track props g ms) = startY g.
Proof.
  induction ms as [|m ms IH]; intros g; [cbn; auto|]. rewrite track_cons.
  destruct (IH (moved props g m)) as (-> & -> & -> & ->).
  apply moved_frame.
Qed.

Lemma track_inv (props : TouchProps) (ms : list VKUITouchEvent) :
  forall g, GestureInv props g -> GestureInv props (track props g ms).
Proof.
  induction ms as [|m ms IH]; intros g Hg; [assumption|]. rewrite track_cons.
  apply IH. apply GestureInv_moved. assumption.
Qed.

Lemma track_unlocked (props : TouchProps) (e0 : VKUITouchEvent)
    (ms : list VKUITouchEvent) :
  forall g,
    Unlocked e0 g ->
    Forall (noLock props e0) ms ->
    Unlocked e0 (track props g ms).
Proof.
  induction ms as [|m ms IH]; intros g Hg Hms; [assumption|]. rewrite track_cons.
  inversion Hms as [|? ? Hm Hrest]; subst.
  apply IH; [|assumption].
  rewrite (moved_unlocked props e0 m g Hg), decided_noLock by assumption.
  right. reflexivity.
Qed.

Lemma track_locked (props : TouchProps) (ms : list VKUITouchEvent) :
  forall g,
    JS.truthy (isX g) || JS.truthy (isY g) = true ->
    isX (track props g ms) = isX g /\ isY (track props g ms) = isY g.
Proof.
  induction ms as [|m ms IH]; intros g Hl; [cbn; auto|]. rewrite track_cons.
  destruct (moved_locked props g m Hl) as [HX HY].
  destruct (IH (moved props g m)) as [-> ->]; [|auto].
  rewrite HX, HY. assumption.
Qed.

Lemma track_app (props : TouchProps) (g : Gesture)
    (xs ys : list VKUITouchEvent) :
  track props g (xs ++ ys) = track props (track props g xs) ys.
Proof. apply fold_left_app. Qed.

(** The component follows [track] over single-touch samples and is silent
    towards the did-slide flag. *)
Lemma run_moves (props : TouchProps) (te : bool)
    (ms : list VKUITouchEvent) :
  forall s t0,
    JS.truthy (isPressed (gesture s)) = true ->
    startT (gesture s) = Some t0 ->
    Forall singleTouch ms ->
    run props te s (map Move ms)
    = {| gesture := track props (gesture s) ms; didSlide := didSlide s |}.
Proof.
  induction ms as [|m ms IH]; intros s t0 Hp Ht Hms; [|rewrite track_cons]; cbn [map run].
  - destruct s; reflexivity.
  - inversion Hms as [|? ? Hm Hrest]; subst.
    cbn [step]. rewrite (onMove_single props te m s t0) by assumption.
    cbn [stateOf].
    destruct (moved_frame props (gesture s) m) as (HP & HT & _).
    rewrite (IH _ t0); cbn [gesture didSlide]; try congruence; auto.
Qed.

Lemma run_gesture (props : TouchProps) (te : bool) (s0 : State)
    (e0 : VKUITouchEvent) (ms : list VKUITouchEvent) :
  Forall singleTouch ms ->
  run props te s0 (Start e0 :: map Move ms)
  = {| gesture := track props (pressedAt e0) ms; didSlide := didSlide s0 |}.
Proof.
  intros Hms. cbn [run step]. rewrite startHandler_eq. cbn [stateOf].
  rewrite (run_moves props te ms _ (now e0)); auto.
Qed.

Lemma Unlocked_axes (e0 : VKUITouchEvent) (g : Gesture) :
  Unlocked e0 g ->
  JS.truthy (isX g) = false /\ JS.truthy (isY g) = false
  /\ JS.truthy (isSlide g) = false.
Proof. intros [->| ->]; cbn; auto. Qed.

Lemma tie_noLock (props : TouchProps) (e0 e : VKUITouchEvent) :
  Z.abs (dX e0 e) = Z.abs (dY e0 e) -> noLock props e0 e.
Proof.
  intros Htie. unfold noLock, lockX, lockY. rewrite Htie.
  replace (Z.abs (dY e0 e) >? Z.abs (dY e0 e)) with false
    by (symmetry; rewrite Z.gtb_ltb; apply Z.ltb_irrefl).
  rewrite andb_false_r. auto.
Qed.

(** ** The properties *)

(** C1.  Within one gesture the axis lock is decided at most once.  While
    no move sample has met a lock condition neither axis is locked; the
    first sample [m] that is handled in that situation sets [isX] and [isY]
    to the two lock conditions evaluated at [m], which never hold
    together; when the two absolute displacements at [m] are equal neither
    axis locks and the next sample is decided in the same way; and once
    [m] has locked an axis, no later sample of the gesture changes [isX] or
    [isY]. *)
Theorem axis_lock_decided_once
    (props : TouchProps) (te : bool) (s0 : State) (e0 : VKUITouchEvent)
    (pre : list VKUITouchEvent) (m : VKUITouchEvent)
    (post : list VKUITouchEvent) :
  Forall singleTouch (pre ++ m :: post) ->
  Forall (noLock props e0) pre ->
  let after l := gesture (run props te s0 (Start e0 :: map Move l)) in
  (JS.truthy (isX (after pre)) = false
   /\ JS.truthy (isY (after pre)) = false)
  /\ (isX (after (pre ++ [m])) = Some (lockX props e0 m)
      /\ isY (after (pre ++ [m])) = Some (lockY props e0 m))
  /\ lockX props e0 m && lockY props e0 m = false
  /\ (Z.abs (dX e0 m) = Z.abs (dY e0 m) ->
      isX (after (pre ++ [m])) = Some false
      /\ isY (after (pre ++ [m])) = Some false
      /\ forall m',
           singleTouch m' ->
           isX (after (pre ++ [m; m'])) = Some (lockX props e0 m')
           /\ isY (after (pre ++ [m; m'])) = Some (lockY props e0 m'))
  /\ (lockX props e0 m = true ->
      isX (after (pre ++ m :: post)) = Some true
      /\ isY (after (pre ++ m :: post)) = Some false)
  /\ (lockY props e0 m = true ->
      isY (after (pre ++ m :: post)) = Some true
      /\ isX (after (pre ++ m :: post)) = Some false).
Proof.
  intros Hall Hpre after.
  apply Forall_app in Hall. destruct Hall as [Hs_pre Hs_rest].
  inversion Hs_rest as [|? ? Hs_m Hs_post]; subst.
  assert (Hafter : forall l, Forall singleTouch l ->
                             after l = track props (pressedAt e0) l).
  { intros l Hl. unfold after. rewrite run_gesture by assumption.
    reflexivity. }
  assert (Hun : Unlocked e0 (track props (pressedAt e0) pre))
    by (apply track_unlocked; [left; reflexivity|assumption]).
  assert (Hm : after (pre ++ [m]) = decided props e0 m).
  { rewrite Hafter by (apply Forall_app; auto).
    rewrite track_app. cbn. apply moved_unlocked. assumption. }
  pose proof (lock_exclusive props e0 m) as Hex.
  pose proof (decided_axes props e0 m) as [HdX HdY].
  assert (Hlater : after (pre ++ m :: post)
                   = track props (decided props e0 m) post).
  { rewrite Hafter by (apply Forall_app; auto).
    rewrite track_app, track_cons.
    rewrite (moved_unlocked props e0 m _ Hun). reflexivity. }
  rewrite Hm, HdX, HdY, Hlater, (Hafter pre Hs_pre).
  destruct (Unlocked_axes e0 _ Hun) as (HuX & HuY & _).
  split; [auto|]. split; [auto|]. split; [assumption|].
  split; [|split].
  - intros Htie. pose proof (tie_noLock props e0 m Htie) as Hno.
    destruct Hno as [HnX HnY]. rewrite HnX, HnY.
    split; [reflexivity|]. split; [reflexivity|].
    intros m' Hs_m'.
    assert (Hmm : after (pre ++ [m; m']) = decided props e0 m').
    { rewrite Hafter by (apply Forall_app; auto).
      replace (pre ++ [m; m']) with ((pre ++ [m]) ++ [m'])
        by (rewrite <- app_assoc; reflexivity).
      rewrite track_app, <- Hafter by (apply Forall_app; auto).
      rewrite Hm, (decided_noLock props e0 m (conj HnX HnY)).
      cbn [track fold_left].
      apply moved_unlocked. right. reflexivity. }
    rewrite Hmm. apply decided_axes.
  - intros HlX.
    destruct (track_locked props post (decided props e0 m)) as [-> ->];
      [rewrite HdX, HlX; reflexivity|].
    rewrite HdX, HdY, HlX. rewrite HlX in Hex. cbn in Hex. rewrite Hex.
    auto.
  - intros HlY.
    destruct (track_locked props post (decided props e0 m)) as [-> ->];
      [rewrite HdY, HlY; apply orb_true_r|].
    rewrite HdX, HdY, HlY. rewrite HlY, andb_true_r in Hex. rewrite Hex.
    auto.
Qed.

Lemma axis_lock_decided_once_witness :
  let e0 := touch "touchstart" 0 0 1 100 in
  let a := touch "touchmove" 5 5 1 110 in
  let b := touch "touchmove" 5 9 1 120 in
  let c := touch "touchmove" 30 9 1 130 in
  Forall singleTouch ([a] ++ b :: [c])
  /\ Forall (noLock sampleProps e0) [a]
  /\ isY (gesture (run sampleProps true initial
                     (Start e0 :: map Move ([a] ++ b :: [c])))) = Some true
  /\ isX (gesture (run sampleProps true initial
                     (Start e0 :: map Move ([a] ++ b :: [c])))) = Some false.
Proof.
  intros e0 a b c.
  assert (H1 : Forall singleTouch ([a] ++ b :: [c]))
    by (repeat constructor).
  assert (H2 : Forall (noLock sampleProps e0) [a])
    by (repeat constructor).
  split; [exact H1|]. split; [exact H2|].
  destruct (axis_lock_decided_once sampleProps true initial e0 [a] b [c] H1 H2)
    as (_ & _ & _ & _ & _ & HY).
  apply HY. reflexivity.
Defined.

Lemma present_sorted_end (a b c : bool) (sx sy : option bool) :
  JS.truthy sx && JS.truthy sy = false ->
  StronglySorted before
    (present [prop a OnEnd;
              guarded sy (prop b OnEndY);
              guarded sx (prop c OnEndX)]).
Proof.
  intros Hex. unfold guarded, prop.
  destruct (JS.truthy sx), (JS.truthy sy); try discriminate Hex;
    destruct a, b, c; cbn; repeat constructor.
Qed.

Lemma present_sorted_move (a b c : bool) (sx sy : option bool) :
  StronglySorted before
    (present [prop a OnMove;
              guarded sx (prop b OnMoveX);
              guarded sy (prop c OnMoveY)]).
Proof.
  unfold guarded, prop.
  destruct (JS.truthy sx), (JS.truthy sy), a, b, c; cbn; repeat constructor.
Qed.

Lemma present_sorted_start (a b c : bool) :
  StronglySorted before
    (present [prop a OnStart; prop b OnStartX; prop c OnStartY]).
Proof. unfold prop. destruct a, b, c; cbn; repeat constructor. Qed.

Lemma called_onEnd_pressed (props : TouchProps) (te : bool)
    (e : VKUITouchEvent) (s : State) (t0 : Z) :
  JS.truthy (isPressed (gesture s)) = true ->
  startT (gesture s) = Some t0 ->
  called (traceOf (onEnd props te e s))
  = present [prop (_onEnd props) OnEnd;
             guarded (isSlideY (gesture s)) (prop (onEndY props) OnEndY);
             guarded (isSlideX (gesture s)) (prop (onEndX props) OnEndX)].
Proof.
  intros Hp Ht. rewrite (onEnd_pressed props te e s t0) by assumption.
  cbn [traceOf].
  rewrite !called_app, called_stopTrace, called_callsFor, called_endTail.
  rewrite app_nil_r. reflexivity.
Qed.

Lemma present_start_supplied (a b c : bool) :
  present [prop a OnStart; prop b OnStartX; prop c OnStartY]
  = supplied a OnStart ++ supplied b OnStartX ++ supplied c OnStartY.
Proof. destruct a, b, c; reflexivity. Qed.

Lemma present_move_supplied (a b c : bool) (sx sy : option bool) :
  present [prop a OnMove;
           guarded sx (prop b OnMoveX);
           guarded sy (prop c OnMoveY)]
  = supplied a OnMove
    ++ (if JS.truthy sx then supplied b OnMoveX else [])
    ++ (if JS.truthy sy then supplied c OnMoveY else []).
Proof.
  unfold guarded.
  destruct (JS.truthy sx), (JS.truthy sy), a, b, c; reflexivity.
Qed.

(** The end handler lists Y before X. *)
Lemma present_end_supplied_as_listed (a b c : bool) (sx sy : option bool) :
  present [prop a OnEnd;
           guarded sy (prop b OnEndY);
           guarded sx (prop c OnEndX)]
  = supplied a OnEnd
    ++ (if JS.truthy sy then supplied b OnEndY else [])
    ++ (if JS.truthy sx then supplied c OnEndX else []).
Proof.
  unfold guarded.
  destruct (JS.truthy sx), (JS.truthy sy), a, b, c; reflexivity.
Qed.

(** As the two slide flags are never set together, this is the order
    generic, X, Y. *)
Lemma present_end_supplied (a b c : bool) (sx sy : option bool) :
  JS.truthy sx && JS.truthy sy = false ->
  present [prop a OnEnd;
           guarded sy (prop b OnEndY);
           guarded sx (prop c OnEndX)]
  = supplied a OnEnd
    ++ (if JS.truthy sx then supplied c OnEndX else [])
    ++ (if JS.truthy sy then supplied b OnEndY else []).
Proof.
  intros Hex. unfold guarded.
  destruct (JS.truthy sx), (JS.truthy sy); try discriminate Hex;
    destruct a, b, c; reflexivity.
Qed.

(** C2.  In every state the component can reach, the callbacks a handler
    calls for one input signal are exactly the expected ones, each once and
    in the order generic, X, Y: on a start the three start callbacks that
    were supplied; on a move sample that leaves the gesture a slide the
    generic move callback, then that of X when the X axis slides, then that
    of Y when the Y axis slides; on an end (or a multi-touch abort) of a
    pressed gesture the generic end callback, then that of X, then that of
    Y, under the same conditions; and nothing otherwise.  In particular the
    list of callbacks called is strictly increasing for that order. *)
Theorem callbacks_in_fixed_order
    (props : TouchProps) (te : bool) (sigs : list Signal) (i : Signal) :
  called (traceOf (step props te i (run props te initial sigs)))
  = expectedCalls props (run props te initial sigs) i
  /\ StronglySorted before
       (called (traceOf (step props te i (run props te initial sigs)))).
Proof.
  split.
  - pose proof (reachable_inv props te sigs) as Hg.
    set (s := run props te initial sigs) in *.
    pose proof (GestureInv_exclusive props _ Hg) as Hex.
    destruct i as [e|e|e|c]; cbn [step expectedCalls].
    + rewrite startHandler_eq. cbn [traceOf].
      rewrite !called_app, called_stopTrace, called_callsFor.
      replace (called (if te then [] else [Subscribe Document])) with
        (@nil Handler) by (destruct te; reflexivity).
      rewrite app_nil_r. apply present_start_supplied.
    + destruct (JS.truthy (isPressed (gesture s))) eqn:Hp.
      * destruct (inv_startT _ _ Hg Hp) as [t0 Ht].
        destruct (multiTouch e) eqn:Hm.
        -- rewrite onMove_multi by assumption.
           rewrite (called_onEnd_pressed props te e s t0) by assumption.
           apply present_end_supplied. assumption.
        -- rewrite (onMove_single props te e s t0) by assumption.
           cbn [traceOf]. unfold movedTrace, moveCalls.
           destruct (JS.truthy (isSlide (moved props (gesture s) e)));
             [|reflexivity].
           rewrite called_app, called_stopTrace, called_callsFor.
           apply present_move_supplied.
      * rewrite onMove_idle by assumption. reflexivity.
    + destruct (JS.truthy (isPressed (gesture s))) eqn:Hp.
      * destruct (inv_startT _ _ Hg Hp) as [t0 Ht].
        rewrite (called_onEnd_pressed props te e s t0) by assumption.
        apply present_end_supplied. assumption.
      * rewrite onEnd_idle by assumption. cbn [traceOf].
        apply called_endTail.
    + rewrite postGestureClick_eq.
      destruct (JS.truthy (didSlide s)), (closestA c), (noSlideClick props),
        (onClickCapture props); reflexivity.
  - { pose proof (reachable_inv props te sigs) as Hg.
    set (s := run props te initial sigs) in *.
    pose proof (GestureInv_exclusive props _ Hg) as Hex.
    destruct i as [e|e|e|c]; cbn [step].
    - rewrite startHandler_eq. cbn [traceOf].
      rewrite !called_app, called_stopTrace, called_callsFor.
      replace (called (if te then [] else [Subscribe Document])) with
        (@nil Handler) by (destruct te; reflexivity).
      rewrite app_nil_r. apply present_sorted_start.
    - destruct (JS.truthy (isPressed (gesture s))) eqn:Hp.
      + destruct (inv_startT _ _ Hg Hp) as [t0 Ht].
        destruct (multiTouch e) eqn:Hm.
        * rewrite onMove_multi by assumption.
          rewrite (called_onEnd_pressed props te e s t0) by assumption.
          apply present_sorted_end. assumption.
        * rewrite (onMove_single props te e s t0) by assumption.
          cbn [traceOf]. unfold movedTrace.
          destruct (JS.truthy (isSlide (moved props (gesture s) e)));
            [|constructor].
          rewrite called_app, called_stopTrace, called_callsFor.
          apply present_sorted_move.
      + rewrite onMove_idle by assumption. constructor.
    - destruct (JS.truthy (isPressed (gesture s))) eqn:Hp.
      + destruct (inv_startT _ _ Hg Hp) as [t0 Ht].
        rewrite (called_onEnd_pressed props te e s t0) by assumption.
        apply present_sorted_end. assumption.
      + rewrite onEnd_idle by assumption. cbn [traceOf].
        rewrite called_endTail. constructor.
    - rewrite postGestureClick_eq.
      destruct (JS.truthy (didSlide s)), (closestA c), (noSlideClick props),
        (onClickCapture props); cbn; constructor. }
Qed.

Lemma callbacks_in_fixed_order_witness :
  let e0 := touch "touchstart" 0 0 1 100 in
  let right := touch "touchmove" 10 1 1 110 in
  let down := touch "touchmove" 1 10 1 110 in
  let lift := touch "touchend" 0 0 0 120 in
  let step' := step sampleProps true in
  let after := run sampleProps true initial in
  called (traceOf (step' (Start e0) (after [])))
  = [OnStart; OnStartX; OnStartY]
  /\ called (traceOf (step' (Move right) (after [Start e0])))
     = [OnMove; OnMoveX]
  /\ called (traceOf (step' (End lift) (after [Start e0; Move right])))
     = [OnEnd; OnEndX]
  /\ called (traceOf (step' (Move down) (after [Start e0])))
     = [OnMove; OnMoveY]
  /\ called (traceOf (step' (End lift) (after [Start e0; Move down])))
     = [OnEnd; OnEndY].
Proof.
  intros e0 right down lift step' after. unfold step', after.
  split; [|split; [|split; [|split]]];
    match goal with
    | |- called (traceOf (step _ _ ?i (run _ _ _ ?sigs))) = _ =>
        rewrite (proj1 (callbacks_in_fixed_order sampleProps true sigs i));
        reflexivity
    end.
Defined.

(** Outside a press the gesture record is the empty object. *)
Lemma step_idle_empty (props : TouchProps) (te : bool) (i : Signal)
    (s : State) :
  GestureInv props (gesture s) ->
  (JS.truthy (isPressed (gesture s)) = false -> gesture s = emptyGesture) ->
  JS.truthy (isPressed (gesture (stateOf (step props te i s)))) = false ->
  gesture (stateOf (step props te i s)) = emptyGesture.
Proof.
  intros Hg Hidle. destruct i as [e|e|e|c]; cbn [step].
  - rewrite startHandler_eq. cbn. discriminate.
  - destruct (JS.truthy (isPressed (gesture s))) eqn:Hp.
    + destruct (inv_startT _ _ Hg Hp) as [t0 Ht].
      destruct (multiTouch e) eqn:Hm.
      * rewrite onMove_multi, (onEnd_pressed props te e s t0) by assumption.
        reflexivity.
      * rewrite (onMove_single props te e s t0) by assumption.
        cbn [stateOf gesture].
        destruct (moved_frame props (gesture s) e) as (-> & _).
        congruence.
    + rewrite onMove_idle by assumption. cbn. auto.
  - destruct (JS.truthy (isPressed (gesture s))) eqn:Hp.
    + destruct (inv_startT _ _ Hg Hp) as [t0 Ht].
      rewrite (onEnd_pressed props te e s t0) by assumption. reflexivity.
    + rewrite onEnd_idle by assumption. reflexivity.
  - rewrite postGestureClick_eq.
    destruct (JS.truthy (didSlide s)); cbn; auto.
Qed.

Lemma run_idle_empty (props : TouchProps) (te : bool) (sigs : list Signal) :
  forall s,
    GestureInv props (gesture s) ->
    (JS.truthy (isPressed (gesture s)) = false -> gesture s = emptyGesture) ->
    JS.truthy (isPressed (gesture (run props te s sigs))) = false ->
    gesture (run props te s sigs) = emptyGesture.
Proof.
  induction sigs as [|i rest IH]; intros s Hg Hidle; cbn [run]; [assumption|].
  apply IH.
  - apply step_inv. assumption.
  - apply step_idle_empty; assumption.
Qed.

Lemma reachable_idle_empty (props : TouchProps) (te : bool)
    (sigs : list Signal) :
  JS.truthy (isPressed (gesture (run props te initial sigs))) = false ->
  gesture (run props te initial sigs) = emptyGesture.
Proof.
  apply run_idle_empty; [apply GestureInv_empty|reflexivity].
Qed.

(** C3, as the code has it.  While no gesture is pressed a move signal does
    nothing at all.  An end or cancel signal calls no gesture callback and
    leaves the gesture record as it is (empty), but it overwrites the
    did-slide flag with the absent [isSlide] of the empty record, and it
    still runs the tail of the end handler: the synthesized leave for a
    touch end or cancel, and the release of the document listeners where
    touch is not available. *)
Theorem idle_move_noop_idle_end_resets
    (props : TouchProps) (te : bool) (sigs : list Signal)
    (e : VKUITouchEvent) :
  let s := run props te initial sigs in
  JS.truthy (isPressed (gesture s)) = false ->
  onMove props te e s = Ok tt s []
  /\ onEnd props te e s
     = Ok tt {| gesture := gesture s; didSlide := None |}
         (endTail props te e)
  /\ called (traceOf (onEnd props te e s)) = [].
Proof.
  intros s Hidle.
  pose proof (reachable_idle_empty props te sigs Hidle) as Hempty.
  fold s in Hempty.
  split; [apply onMove_idle; assumption|].
  rewrite (onEnd_idle props te e s Hidle). rewrite Hempty. cbn [isSlide emptyGesture traceOf].
  split; [reflexivity|apply called_endTail].
Qed.

Lemma idle_move_noop_idle_end_resets_witness :
  let e := touch "touchend" 3 4 0 200 in
  JS.truthy (isPressed (gesture (run sampleProps true initial []))) = false
  /\ onMove sampleProps true e initial = Ok tt initial []
  /\ onEnd sampleProps true e initial
     = Ok tt {| gesture := emptyGesture; didSlide := None |} [Leave e].
Proof.
  intros e.
  assert (H : JS.truthy (isPressed (gesture (run sampleProps true initial [])))
              = false) by reflexivity.
  split; [exact H|].
  destruct (idle_move_noop_idle_end_resets sampleProps true [] e H)
    as (Hm & He & _).
  split; [exact Hm|exact He].
Defined.

(** C3, as stated, does not hold: on a touch device, after a slide that was
    aborted by a second finger, the end signal of the lifted finger arrives
    while nothing is pressed; it clears the did-slide flag that the abort
    had set and calls [onLeave]. *)
Lemma idle_end_is_not_noop :
  let e0 := touch "touchstart" 0 0 1 100 in
  let slide := touch "touchmove" 10 1 1 110 in
  let second := touch "touchmove" 10 1 2 120 in
  let lift := touch "touchend" 10 1 1 130 in
  let s := run sampleProps true initial [Start e0; Move slide; Move second] in
  JS.truthy (isPressed (gesture s)) = false
  /\ didSlide s = Some true
  /\ didSlide (stateOf (onEnd sampleProps true lift s)) = None
  /\ traceOf (onEnd sampleProps true lift s) = [Leave lift]
  /\ onEnd sampleProps true lift s <> Ok tt s [].
Proof.
  cbv zeta. repeat split; try reflexivity.
  vm_compute. discriminate.
Qed.

(** C4, as the code has it.  In every state the component can reach, the
    did-slide flag is written by exactly two kinds of signal: an end of a
    gesture (an end or cancel signal, or a multi-touch move sample while
    pressed) stores the [isSlide] of the gesture record, whatever the flag
    held before, and a click that finds the flag set clears it.  Start
    signals, the other move samples and clicks that find the flag unset
    leave it as it is. *)
Theorem did_slide_written_by_end_and_click
    (props : TouchProps) (te : bool) (sigs : list Signal) (i : Signal) :
  let s := run props te initial sigs in
  didSlide (stateOf (step props te i s))
  = match i with
    | Start _ => didSlide s
    | Move e =>
        if JS.truthy (isPressed (gesture s)) && multiTouch e
        then isSlide (gesture s)
        else didSlide s
    | End _ => isSlide (gesture s)
    | Click _ => if JS.truthy (didSlide s) then Some false else didSlide s
    end.
Proof.
  intros s. pose proof (reachable_inv props te sigs) as Hg. fold s in Hg.
  destruct i as [e|e|e|c]; cbn [step].
  - rewrite startHandler_eq. reflexivity.
  - destruct (JS.truthy (isPressed (gesture s))) eqn:Hp; cbn [andb].
    + destruct (inv_startT _ _ Hg Hp) as [t0 Ht].
      destruct (multiTouch e) eqn:Hm.
      * rewrite onMove_multi, (onEnd_pressed props te e s t0) by assumption.
        reflexivity.
      * rewrite (onMove_single props te e s t0) by assumption. reflexivity.
    + rewrite onMove_idle by assumption. reflexivity.
  - destruct (JS.truthy (isPressed (gesture s))) eqn:Hp.
    + destruct (inv_startT _ _ Hg Hp) as [t0 Ht].
      rewrite (onEnd_pressed props te e s t0) by assumption. reflexivity.
    + rewrite onEnd_idle by assumption. reflexivity.
  - rewrite postGestureClick_eq.
    destruct (JS.truthy (didSlide s)); reflexivity.
Qed.

(** C4, as stated, does not hold: a slide ends and sets the flag; no click
    follows; the next gesture is a tap (start, end) and its end clears the
    flag, so that the click of the tap is not the one that consumes it. *)
Lemma did_slide_cleared_without_click :
  let e0 := touch "touchstart" 0 0 1 100 in
  let slide := touch "touchmove" 10 1 1 110 in
  let lift := touch "touchend" 10 1 0 120 in
  let tap := touch "touchstart" 50 50 1 900 in
  let release := touch "touchend" 50 50 0 950 in
  let s := run sampleProps true initial [Start e0; Move slide; End lift] in
  didSlide s = Some true
  /\ JS.truthy (didSlide (run sampleProps true s [Start tap; End release]))
     = false.
Proof. cbv zeta. split; reflexivity. Qed.

(** C5.  A click that finds the did-slide flag unset is forwarded as it is
    and changes nothing.  A click that finds it set has its default
    prevented when its target is inside a link, is then stopped and not
    forwarded when [noSlideClick] is set and forwarded otherwise, and
    leaves the flag cleared, so that the click after it is forwarded as it
    is. *)
Theorem click_gate (props : TouchProps) (s : State) (c c' : ClickEvent) :
  let forwarded x := if onClickCapture props then [ClickForward x] else [] in
  postGestureClick props c s
  = (if JS.truthy (didSlide s)
     then Ok tt {| gesture := gesture s; didSlide := Some false |}
            ((if closestA c then [ClickPreventDefault c] else [])
             ++ (if noSlideClick props then [ClickStopPropagation c]
                 else forwarded c))
     else Ok tt s (forwarded c))
  /\ postGestureClick props c' (stateOf (postGestureClick props c s))
     = Ok tt (stateOf (postGestureClick props c s)) (forwarded c').
Proof.
  intros forwarded. split; [apply postGestureClick_eq|].
  rewrite !postGestureClick_eq.
  destruct (JS.truthy (didSlide s)) eqn:Hd; cbn [stateOf didSlide JS.truthy].
  - reflexivity.
  - rewrite Hd. reflexivity.
Qed.

Lemma delivered_callsFor_in (g : Gesture) (e : VKUITouchEvent) (t0 : Z)
    (hs : list (option Handler)) (h : Handler) (g' : Gesture) :
  In (h, g') (delivered (callsFor g e t0 hs)) ->
  g' = snapshot g (now e - t0) /\ In h (present hs).
Proof.
  rewrite delivered_callsFor. intros Hin.
  apply in_map_iff in Hin. destruct Hin as (h0 & Heq & Hin).
  inversion Heq; subst. auto.
Qed.

Lemma present_end_gated (a b c : bool) (g : Gesture) (d : Z) (h : Handler) :
  In h (present [prop a OnEnd;
                 guarded (isSlideY g) (prop b OnEndY);
                 guarded (isSlideX g) (prop c OnEndX)]) ->
  axisGated h (snapshot g d).
Proof.
  unfold guarded, prop, axisGated. cbn [snapshot isSlideX isSlideY].
  destruct (JS.truthy (isSlideX g)), (JS.truthy (isSlideY g)), a, b, c;
    cbn; intros Hin;
    repeat (destruct Hin as [<-|Hin]; [exact I || reflexivity|]);
    destruct Hin.
Qed.

Lemma present_move_gated (a b c : bool) (g : Gesture) (d : Z) (h : Handler) :
  In h (present [prop a OnMove;
                 guarded (isSlideX g) (prop b OnMoveX);
                 guarded (isSlideY g) (prop c OnMoveY)]) ->
  axisGated h (snapshot g d).
Proof.
  unfold guarded, prop, axisGated. cbn [snapshot isSlideX isSlideY].
  destruct (JS.truthy (isSlideX g)), (JS.truthy (isSlideY g)), a, b, c;
    cbn; intros Hin;
    repeat (destruct Hin as [<-|Hin]; [exact I || reflexivity|]);
    destruct Hin.
Qed.

Lemma present_start_gated (a b c : bool) (g : Gesture) (h : Handler) :
  In h (present [prop a OnStart; prop b OnStartX; prop c OnStartY]) ->
  axisGated h g.
Proof.
  unfold prop, axisGated.
  destruct a, b, c; cbn; intros Hin;
    repeat (destruct Hin as [<-|Hin]; [exact I|]);
    destruct Hin.
Qed.

Lemma delivered_onEnd_pressed (props : TouchProps) (te : bool)
    (e : VKUITouchEvent) (s : State) (t0 : Z) :
  JS.truthy (isPressed (gesture s)) = true ->
  startT (gesture s) = Some t0 ->
  delivered (traceOf (onEnd props te e s))
  = map (fun h => (h, snapshot (gesture s) (now e - t0)))
      (present [prop (_onEnd props) OnEnd;
                guarded (isSlideY (gesture s)) (prop (onEndY props) OnEndY);
                guarded (isSlideX (gesture s)) (prop (onEndX props) OnEndX)]).
Proof.
  intros Hp Ht. rewrite (onEnd_pressed props te e s t0) by assumption.
  cbn [traceOf].
  rewrite !delivered_app, delivered_stopTrace, delivered_callsFor,
    delivered_endTail.
  rewrite app_nil_r. reflexivity.
Qed.

(** C6.  In every state the component can reach, [isSlideX] is set only
    when [isX] is set and the consumer supplied [onMoveX] or the generic
    [onMove], and likewise for Y; and whenever a handler calls an
    axis-specific move or end callback, the gesture it passes has the slide
    flag of that axis set. *)
Theorem slide_flag_needs_lock_and_callback
    (props : TouchProps) (te : bool) (sigs : list Signal) (i : Signal) :
  let s := run props te initial sigs in
  (JS.truthy (isSlideX (gesture s)) = true ->
   JS.truthy (isX (gesture s)) = true
   /\ onMoveX props || _onMove props = true)
  /\ (JS.truthy (isSlideY (gesture s)) = true ->
      JS.truthy (isY (gesture s)) = true
      /\ onMoveY props || _onMove props = true)
  /\ Forall (fun hg => axisGated (fst hg) (snd hg))
       (delivered (traceOf (step props te i s))).
Proof.
  intros s. pose proof (reachable_inv props te sigs) as Hg. fold s in Hg.
  split; [exact (inv_slideX _ _ Hg)|]. split; [exact (inv_slideY _ _ Hg)|].
  apply Forall_forall. intros [h g] Hin. cbn [fst snd].
  destruct i as [e|e|e|c]; cbn [step] in Hin.
  - rewrite startHandler_eq in Hin. cbn [traceOf] in Hin.
    rewrite !delivered_app, delivered_stopTrace in Hin.
    replace (delivered (if te then [] else [Subscribe Document])) with
      (@nil (Handler * Gesture)) in Hin by (destruct te; reflexivity).
    rewrite app_nil_r in Hin. cbn [app] in Hin.
    apply delivered_callsFor_in in Hin. destruct Hin as [_ Hin].
    eapply present_start_gated. exact Hin.
  - destruct (JS.truthy (isPressed (gesture s))) eqn:Hp.
    + destruct (inv_startT _ _ Hg Hp) as [t0 Ht].
      destruct (multiTouch e) eqn:Hm.
      * rewrite onMove_multi in Hin by assumption.
        rewrite (delivered_onEnd_pressed props te e s t0) in Hin by assumption.
        apply in_map_iff in Hin. destruct Hin as (h0 & Heq & Hin).
        inversion Heq; subst. eapply present_end_gated. exact Hin.
      * rewrite (onMove_single props te e s t0) in Hin by assumption.
        cbn [traceOf] in Hin. unfold movedTrace in Hin.
        destruct (JS.truthy (isSlide (moved props (gesture s) e)));
          [|destruct Hin].
        rewrite delivered_app, delivered_stopTrace in Hin. cbn [app] in Hin.
        apply delivered_callsFor_in in Hin. destruct Hin as [-> Hin].
        eapply present_move_gated. exact Hin.
    + rewrite onMove_idle in Hin by assumption. destruct Hin.
  - destruct (JS.truthy (isPressed (gesture s))) eqn:Hp.
    + destruct (inv_startT _ _ Hg Hp) as [t0 Ht].
      rewrite (delivered_onEnd_pressed props te e s t0) in Hin by assumption.
      apply in_map_iff in Hin. destruct Hin as (h0 & Heq & Hin).
      inversion Heq; subst. eapply present_end_gated. exact Hin.
    + rewrite onEnd_idle in Hin by assumption. cbn [traceOf] in Hin.
      rewrite delivered_endTail in Hin. destruct Hin.
  - rewrite postGestureClick_eq in Hin.
    destruct (JS.truthy (didSlide s)), (closestA c), (noSlideClick props),
      (onClickCapture props); cbn in Hin; destruct Hin.
Qed.

Lemma present_end_not_move (a b c : bool) (sx sy : option bool) :
  Forall (fun h => isMoveHandler h = false)
    (present [prop a OnEnd;
              guarded sy (prop b OnEndY);
              guarded sx (prop c OnEndX)]).
Proof.
  unfold guarded, prop.
  destruct (JS.truthy sx), (JS.truthy sy), a, b, c; cbn; repeat constructor.
Qed.

Lemma Unlocked_pressed (e0 : VKUITouchEvent) (g : Gesture) :
  Unlocked e0 g ->
  JS.truthy (isPressed g) = true /\ startT g = Some (now e0).
Proof. intros [->| ->]; cbn; auto. Qed.

(** One move sample that meets no lock condition, in a gesture started at
    [e0] that is unlocked or already over. *)
Lemma noLock_step (props : TouchProps) (te : bool)
    (e0 e : VKUITouchEvent) (s : State) :
  gesture s = emptyGesture \/ Unlocked e0 (gesture s) ->
  noLock props e0 e ->
  (gesture (stateOf (onMove props te e s)) = emptyGesture
   \/ Unlocked e0 (gesture (stateOf (onMove props te e s))))
  /\ Forall (fun h => isMoveHandler h = false)
       (called (traceOf (onMove props te e s)))
  /\ (singleTouch e -> traceOf (onMove props te e s) = []).
Proof.
  intros [Hempty|Hun] Hno.
  - assert (Hp : JS.truthy (isPressed (gesture s)) = false)
      by (rewrite Hempty; reflexivity).
    rewrite onMove_idle by assumption. cbn. auto.
  - destruct (Unlocked_pressed e0 _ Hun) as [Hp Ht].
    destruct (multiTouch e) eqn:Hm.
    + rewrite onMove_multi by assumption.
      rewrite (called_onEnd_pressed props te e s (now e0)) by assumption.
      rewrite (onEnd_pressed props te e s (now e0)) by assumption.
      cbn [stateOf gesture]. split; [left; reflexivity|].
      split; [apply present_end_not_move|].
      unfold singleTouch. congruence.
    + rewrite (onMove_single props te e s (now e0)) by assumption.
      cbn [stateOf traceOf gesture]. unfold movedTrace.
      rewrite (moved_unlocked props e0 e _ Hun), decided_noLock by assumption.
      cbn. split; [right; right; reflexivity|]. split; [constructor|auto].
Qed.

(** C7.  In a gesture started at [e0], as long as no move sample meets a
    lock condition, no axis is locked and no move callback is called; when
    all these samples are single-touch the handlers do nothing at all that
    the outside world can see. *)
Theorem no_lock_no_move_callbacks
    (props : TouchProps) (te : bool) (s0 : State) (e0 : VKUITouchEvent)
    (ms : list VKUITouchEvent) :
  Forall (noLock props e0) ms ->
  let s1 := stateOf (startHandler props te e0 s0) in
  JS.truthy (isX (gesture (run props te s1 (map Move ms)))) = false
  /\ JS.truthy (isY (gesture (run props te s1 (map Move ms)))) = false
  /\ Forall (fun h => isMoveHandler h = false)
       (called (runTrace props te s1 (map Move ms)))
  /\ (Forall singleTouch ms -> runTrace props te s1 (map Move ms) = []).
Proof.
  intros Hms s1.
  assert (H1 : gesture s1 = emptyGesture \/ Unlocked e0 (gesture s1)).
  { right. left. unfold s1. rewrite startHandler_eq. reflexivity. }
  clearbody s1. revert s1 H1.
  induction Hms as [|m ms Hm Hms IH]; intros s1 H1; cbn [map run runTrace].
  - split; [|split; [|split]]; try constructor; auto;
      destruct H1 as [->|Hun]; try reflexivity;
      apply (Unlocked_axes e0 _ Hun).
  - cbn [step].
    destruct (noLock_step props te e0 m s1 H1 Hm) as (Hnext & Hcalls & Hquiet).
    destruct (IH _ Hnext) as (HX & HY & Hrest & Hsilent).
    split; [exact HX|]. split; [exact HY|]. split.
    + rewrite called_app. apply Forall_app. auto.
    + intros Hsingle. inversion Hsingle; subst.
      rewrite Hquiet, Hsilent by assumption. reflexivity.
Qed.

Lemma no_lock_no_move_callbacks_witness :
  let e0 := touch "touchstart" 0 0 1 100 in
  let a := touch "touchmove" 2 2 1 110 in
  let b := touch "touchmove" 7 (-7) 1 120 in
  let s1 := stateOf (startHandler sampleProps true e0 initial) in
  Forall (noLock sampleProps e0) [a; b]
  /\ JS.truthy (isX (gesture (run sampleProps true s1 (map Move [a; b]))))
     = false
  /\ JS.truthy (isY (gesture (run sampleProps true s1 (map Move [a; b]))))
     = false
  /\ runTrace sampleProps true s1 (map Move [a; b]) = [].
Proof.
  intros e0 a b s1.
  assert (H : Forall (noLock sampleProps e0) [a; b]) by (repeat constructor).
  split; [exact H|].
  destruct (no_lock_no_move_callbacks sampleProps true initial e0 [a; b] H)
    as (HX & HY & _ & Hsilent).
  split; [exact HX|]. split; [exact HY|].
  apply Hsilent. repeat constructor.
Defined.

Lemma carries_snapshot (g : Gesture) (d : Z) : carries g d (snapshot g d).
Proof. unfold carries. cbn. repeat split. Qed.

Lemma Forall_delivered_carries (g : Gesture) (d : Z) (hs : list Handler) :
  Forall (fun hg : Handler * Gesture => carries g d (snd hg))
    (map (fun h => (h, snapshot g d)) hs).
Proof.
  apply Forall_forall. intros [h g'] Hin.
  apply in_map_iff in Hin. destruct Hin as (h0 & Heq & _).
  inversion Heq; subst. apply carries_snapshot.
Qed.

(** C8.  A move sample with more than one touch point, taken while a gesture
    is pressed, ends the gesture on the spot: the handler does exactly what
    the end handler does; the end callbacks that are called are the generic
    one and those of the axes that slide; each is given every field of the
    gesture record as it was before the sample, start, lock, slide flags
    and shifts alike, so that the displacement of the sample itself is
    stored nowhere, with the duration at the time of the sample; the
    did-slide flag takes the record's [isSlide]; and the record is
    emptied. *)
Theorem multi_touch_ends_gesture
    (props : TouchProps) (te : bool) (s : State) (e : VKUITouchEvent)
    (t0 : Z) :
  JS.truthy (isPressed (gesture s)) = true ->
  startT (gesture s) = Some t0 ->
  multiTouch e = true ->
  let ends :=
    [prop (_onEnd props) OnEnd;
     guarded (isSlideY (gesture s)) (prop (onEndY props) OnEndY);
     guarded (isSlideX (gesture s)) (prop (onEndX props) OnEndX)] in
  onMove props te e s = onEnd props te e s
  /\ onMove props te e s
     = Ok tt {| gesture := emptyGesture; didSlide := isSlide (gesture s) |}
         (stopTrace props e
          ++ callsFor (gesture s) e t0 ends
          ++ endTail props te e)
  /\ delivered (traceOf (onMove props te e s))
     = map (fun h => (h, snapshot (gesture s) (now e - t0))) (present ends)
  /\ called (traceOf (onMove props te e s))
     = supplied (_onEnd props) OnEnd
       ++ (if JS.truthy (isSlideY (gesture s))
           then supplied (onEndY props) OnEndY else [])
       ++ (if JS.truthy (isSlideX (gesture s))
           then supplied (onEndX props) OnEndX else [])
  /\ Forall (fun hg => carries (gesture s) (now e - t0) (snd hg))
       (delivered (traceOf (onMove props te e s))).
Proof.
  intros Hp Ht Hm ends.
  pose proof (onMove_multi props te e s Hp Hm) as Heq.
  split; [exact Heq|]. rewrite Heq.
  split; [apply onEnd_pressed; assumption|].
  split; [apply delivered_onEnd_pressed; assumption|].
  split.
  - rewrite (called_onEnd_pressed props te e s t0) by assumption.
    apply present_end_supplied_as_listed.
  - rewrite (delivered_onEnd_pressed props te e s t0) by assumption.
    apply Forall_delivered_carries.
Qed.

Lemma multi_touch_ends_gesture_witness :
  let e0 := touch "touchstart" 0 0 1 100 in
  let slide := touch "touchmove" 10 1 1 110 in
  let second := touch "touchmove" 40 70 2 120 in
  let s := run sampleProps true initial [Start e0; Move slide] in
  let given :=
    {| startX := Some (JS.Num 0); startY := Some (JS.Num 0);
       startT := Some 100; duration := Some 20;
       isPressed := Some true;
       isY := Some false; isX := Some true;
       isSlideX := Some true; isSlideY := Some false; isSlide := Some true;
       shiftX := Some (JS.Num 10); shiftY := Some (JS.Num 1);
       shiftXAbs := Some (JS.Num 10); shiftYAbs := Some (JS.Num 1) |} in
  JS.truthy (isPressed (gesture s)) = true
  /\ startT (gesture s) = Some 100
  /\ multiTouch second = true
  /\ stateOf (onMove sampleProps true second s)
     = {| gesture := emptyGesture; didSlide := Some true |}
  /\ delivered (traceOf (onMove sampleProps true second s))
     = [(OnEnd, given); (OnEndX, given)]
  /\ called (traceOf (onMove sampleProps true second s)) = [OnEnd; OnEndX].
Proof.
  intros e0 slide second s given.
  assert (Hp : JS.truthy (isPressed (gesture s)) = true) by reflexivity.
  assert (Ht : startT (gesture s) = Some 100) by reflexivity.
  assert (Hm : multiTouch second = true) by reflexivity.
  split; [exact Hp|]. split; [exact Ht|]. split; [exact Hm|].
  destruct (multi_touch_ends_gesture sampleProps true s second 100 Hp Ht Hm)
    as (_ & Hrun & Hdel & Hcalled & _).
  split; [rewrite Hrun; reflexivity|].
  split; [exact Hdel|exact Hcalled].
Defined.

(** C9.  The start handler never looks at the gesture record it replaces.
    Whatever the state, and so also while a gesture is pressed, it
    overwrites the record with a fresh one for the new start; it calls the
    start callbacks that were supplied, generic, X, Y, each with every
    field of that fresh record and the duration 0, and nothing else from
    the consumer (no end callback for the gesture it discards); and it
    leaves the did-slide flag as it is. *)
Theorem start_overwrites_gesture
    (props : TouchProps) (te : bool) (s : State) (e : VKUITouchEvent) :
  let starts :=
    [prop (onStart props) OnStart;
     prop (onStartX props) OnStartX;
     prop (onStartY props) OnStartY] in
  startHandler props te e s
  = Ok tt {| gesture := pressedAt e; didSlide := didSlide s |}
      (stopTrace props e
       ++ callsFor (pressedAt e) e (now e) starts
       ++ (if te then [] else [Subscribe Document]))
  /\ delivered (traceOf (startHandler props te e s))
     = map (fun h => (h, snapshot (pressedAt e) (now e - now e)))
         (present starts)
  /\ Forall (fun h => isEndHandler h = false)
       (called (traceOf (startHandler props te e s)))
  /\ called (traceOf (startHandler props te e s)) = startCalls props
  /\ Forall (fun hg => carries (pressedAt e) 0 (snd hg))
       (delivered (traceOf (startHandler props te e s))).
Proof.
  intros starts. rewrite startHandler_eq. cbn [traceOf].
  split; [reflexivity|].
  rewrite !delivered_app, delivered_stopTrace, delivered_callsFor.
  rewrite !called_app, called_stopTrace, called_callsFor.
  replace (delivered (if te then [] else [Subscribe Document])) with
    (@nil (Handler * Gesture)) by (destruct te; reflexivity).
  replace (called (if te then [] else [Subscribe Document])) with
    (@nil Handler) by (destruct te; reflexivity).
  rewrite !app_nil_r. split; [reflexivity|].
  split; [|split].
  - unfold starts, prop.
    destruct (onStart props), (onStartX props), (onStartY props); cbn;
      repeat constructor.
  - apply present_start_supplied.
  - rewrite Z.sub_diag. apply Forall_delivered_carries.
Qed.

Lemma start_overwrites_gesture_witness :
  let e0 := touch "touchstart" 0 0 1 100 in
  let slide := touch "touchmove" 10 1 1 110 in
  let again := touch "touchstart" 30 40 2 120 in
  let s := run sampleProps true initial [Start e0; Move slide] in
  let fresh (d : option Z) :=
    {| startX := Some (JS.Num 30); startY := Some (JS.Num 40);
       startT := Some 120; duration := d;
       isPressed := Some true;
       isY := None; isX := None;
       isSlideX := None; isSlideY := None; isSlide := None;
       shiftX := None; shiftY := None;
       shiftXAbs := None; shiftYAbs := None |} in
  (JS.truthy (isPressed (gesture s)) = true
   /\ JS.truthy (isSlide (gesture s)) = true)
  /\ stateOf (startHandler sampleProps true again s)
     = {| gesture := fresh None; didSlide := didSlide s |}
  /\ delivered (traceOf (startHandler sampleProps true again s))
     = [(OnStart, fresh (Some 0)); (OnStartX, fresh (Some 0));
        (OnStartY, fresh (Some 0))]
  /\ called (traceOf (startHandler sampleProps true again s))
     = [OnStart; OnStartX; OnStartY].
Proof.
  intros e0 slide again s fresh.
  split; [split; reflexivity|].
  destruct (start_overwrites_gesture sampleProps true s again)
    as (Hrun & Hdel & _ & Hcalled & _).
  split; [rewrite Hrun; reflexivity|].
  split; [exact Hdel|exact Hcalled].
Defined.

Lemma track_last_shift (props : TouchProps) (e0 : VKUITouchEvent)
    (pre : list VKUITouchEvent) (m : VKUITouchEvent) :
  let g := track props (pressedAt e0) (pre ++ [m]) in
  JS.truthy (isSlide g) = true ->
  shiftX g = Some (JS.Num (dX e0 m))
  /\ shiftY g = Some (JS.Num (dY e0 m))
  /\ shiftXAbs g = Some (JS.Num (Z.abs (dX e0 m)))
  /\ shiftYAbs g = Some (JS.Num (Z.abs (dY e0 m))).
Proof.
  intros g. unfold g. rewrite track_app. cbn [track fold_left].
  fold (track props (pressedAt e0) pre). intros Hs.
  pose proof (moved_shift props _ m Hs) as Hsh.
  destruct (track_frame props pre (pressedAt e0)) as (_ & _ & HX & HY).
  rewrite HX, HY in Hsh. exact Hsh.
Qed.

(** C10.  The end handler takes nothing from the event that ends the
    gesture but its clock: what it gives to the end callbacks is the stored
    gesture record, shift fields included.  In a gesture of single-touch
    samples these fields are absent as long as the gesture is not a slide,
    and once it is a slide they are the displacement of the last move
    sample from the start. *)
Theorem end_reports_stored_shifts
    (props : TouchProps) (te : bool) (s0 : State) (e0 : VKUITouchEvent)
    (ms : list VKUITouchEvent) (e : VKUITouchEvent) :
  Forall singleTouch ms ->
  let s := run props te s0 (Start e0 :: map Move ms) in
  let g := gesture s in
  delivered (traceOf (onEnd props te e s))
  = map (fun h => (h, snapshot g (now e - now e0)))
      (present [prop (_onEnd props) OnEnd;
                guarded (isSlideY g) (prop (onEndY props) OnEndY);
                guarded (isSlideX g) (prop (onEndX props) OnEndX)])
  /\ (forall d,
        shiftX (snapshot g d) = shiftX g
        /\ shiftY (snapshot g d) = shiftY g
        /\ shiftXAbs (snapshot g d) = shiftXAbs g
        /\ shiftYAbs (snapshot g d) = shiftYAbs g)
  /\ (JS.truthy (isSlide g) = false ->
      shiftX g = None /\ shiftY g = None
      /\ shiftXAbs g = None /\ shiftYAbs g = None)
  /\ (JS.truthy (isSlide g) = true ->
      exists pre m,
        ms = pre ++ [m]
        /\ shiftX g = Some (JS.Num (dX e0 m))
        /\ shiftY g = Some (JS.Num (dY e0 m))
        /\ shiftXAbs g = Some (JS.Num (Z.abs (dX e0 m)))
        /\ shiftYAbs g = Some (JS.Num (Z.abs (dY e0 m)))).
Proof.
  intros Hms s g.
  assert (Hs : s = {| gesture := track props (pressedAt e0) ms;
                      didSlide := didSlide s0 |})
    by (apply run_gesture; assumption).
  assert (Hg : g = track props (pressedAt e0) ms)
    by (unfold g; rewrite Hs; reflexivity).
  destruct (track_frame props ms (pressedAt e0)) as (HP & HT & _).
  split; [|split; [|split]].
  - apply delivered_onEnd_pressed; fold g; rewrite Hg.
    + rewrite HP. reflexivity.
    + rewrite HT. reflexivity.
  - intros d. cbn. auto.
  - rewrite Hg. apply (inv_shift props).
    apply track_inv. apply GestureInv_pressedAt.
  - rewrite Hg. intros Hslide.
    assert (Hne : ms <> []).
    { intros Hnil. rewrite Hnil in Hslide. discriminate Hslide. }
    destruct (exists_last Hne) as (pre & m & Hlast).
    exists pre, m. split; [exact Hlast|].
    rewrite Hlast in Hslide |- *.
    apply track_last_shift. assumption.
Qed.

Lemma end_reports_stored_shifts_witness :
  let e0 := touch "touchstart" 0 0 1 100 in
  let a := touch "touchmove" 10 1 1 110 in
  let b := touch "touchmove" 12 (-3) 1 120 in
  let lift := touch "touchend" 500 500 0 130 in
  let s := run sampleProps true initial (Start e0 :: map Move [a; b]) in
  Forall singleTouch [a; b]
  /\ delivered (traceOf (onEnd sampleProps true lift s))
     = [(OnEnd, snapshot (gesture s) 30); (OnEndX, snapshot (gesture s) 30)]
  /\ shiftX (snapshot (gesture s) 30) = Some (JS.Num 12)
  /\ shiftY (snapshot (gesture s) 30) = Some (JS.Num (-3)).
Proof.
  intros e0 a b lift s.
  assert (H : Forall singleTouch [a; b]) by (repeat constructor).
  split; [exact H|].
  destruct (end_reports_stored_shifts sampleProps true initial e0 [a; b] lift H)
    as (Hdel & _).
  split; [exact Hdel|]. split; reflexivity.
Defined.

(** ** Scenarios *)

(** Start at (0,0), move to (10,1): the X axis locks, the generic and the X
    move callbacks are called, in this order, and [onMoveY] is not. *)
Example scenario_lock_x :
  let e0 := touch "touchstart" 0 0 1 100 in
  let a := touch "touchmove" 10 1 1 110 in
  let s1 := stateOf (startHandler sampleProps true e0 initial) in
  called (traceOf (startHandler sampleProps true e0 initial))
  = [OnStart; OnStartX; OnStartY]
  /\ isX (gesture (stateOf (onMove sampleProps true a s1))) = Some true
  /\ isSlideX (gesture (stateOf (onMove sampleProps true a s1))) = Some true
  /\ called (traceOf (onMove sampleProps true a s1)) = [OnMove; OnMoveX].
Proof. cbv zeta. repeat split; reflexivity. Qed.

(** Start at (0,0), move to (2,2), then to (1,8): the first sample locks
    nothing, the second locks Y. *)
Example scenario_lock_y_on_second_sample :
  let e0 := touch "touchstart" 0 0 1 100 in
  let a := touch "touchmove" 2 2 1 110 in
  let b := touch "touchmove" 1 8 1 120 in
  let g1 := gesture (run sampleProps true initial [Start e0; Move a]) in
  let g2 := gesture (run sampleProps true initial [Start e0; Move a; Move b]) in
  (isX g1 = Some false /\ isY g1 = Some false)
  /\ (isX g2 = Some false /\ isY g2 = Some true).
Proof. cbv zeta. repeat split; reflexivity. Qed.

(** Start at (0,0), move to (5,5): a tie at the threshold locks nothing; a
    further move to (5,9) locks Y. *)
Example scenario_tie_then_lock_y :
  let e0 := touch "touchstart" 0 0 1 100 in
  let a := touch "touchmove" 5 5 1 110 in
  let b := touch "touchmove" 5 9 1 120 in
  let g1 := gesture (run sampleProps true initial [Start e0; Move a]) in
  let g2 := gesture (run sampleProps true initial [Start e0; Move a; Move b]) in
  (isX g1 = Some false /\ isY g1 = Some false)
  /\ (isX g2 = Some false /\ isY g2 = Some true).
Proof. cbv zeta. repeat split; reflexivity. Qed.

(** A touch end after a slide locked to X calls the generic and the X end
    callbacks and then the synthesized leave; the click that follows is
    kept from the consumer and from the enclosing link. *)
Example scenario_slide_then_click :
  let e0 := touch "touchstart" 0 0 1 100 in
  let a := touch "touchmove" 10 1 1 110 in
  let lift := touch "touchend" 10 1 0 120 in
  let c := {| closestA := true |} in
  let s := run sampleProps true initial [Start e0; Move a] in
  let s' := stateOf (onEnd sampleProps true lift s) in
  called (traceOf (onEnd sampleProps true lift s)) = [OnEnd; OnEndX]
  /\ In (Leave lift) (traceOf (onEnd sampleProps true lift s))
  /\ traceOf (postGestureClick sampleProps c s')
     = [ClickPreventDefault c; ClickStopPropagation c]
  /\ didSlide (stateOf (postGestureClick sampleProps c s')) = Some false.
Proof. cbv zeta. repeat split; try reflexivity. cbn. auto. Qed.

(** ** Further properties of the handlers *)

Lemma RecordInv_empty : RecordInv emptyGesture.
Proof. constructor; cbn; [discriminate|auto|discriminate]. Qed.

Lemma RecordInv_pressedAt (e : VKUITouchEvent) : RecordInv (pressedAt e).
Proof.
  constructor; cbn;
    [intros _; do 3 eexists; repeat split|auto|discriminate].
Qed.

Lemma RecordInv_moved (props : TouchProps) (g : Gesture)
    (e : VKUITouchEvent) :
  RecordInv g ->
  JS.truthy (isPressed g) = true ->
  RecordInv (moved props g e).
Proof.
  intros [Hst Habs Hpr] Hp.
  destruct (Hst Hp) as (sx & sy & t0 & HX & HY & HT).
  destruct (moved_frame props g e) as (FP & FT & FX & FY).
  constructor.
  - intros _. exists sx, sy, t0. rewrite FT, FX, FY. auto.
  - unfold moved. rewrite HX, HY. cbn [JS.toNumber JS.sub].
    set (g1 := if negb (JS.truthy (isX g)) && negb (JS.truthy (isY g))
               then _ else g).
    assert (H1 : shiftXAbs g1 = option_map JS.abs (shiftX g1)
                 /\ shiftYAbs g1 = option_map JS.abs (shiftY g1))
      by (unfold g1; destruct (negb _ && negb _); cbn; exact Habs).
    destruct (JS.truthy (isSlide g1)); cbn; auto.
  - pose proof (moved_shift props g e) as Hsh.
    intros Hs. destruct (Hsh Hs) as (SX & SY & _).
    rewrite HX in SX. rewrite HY in SY. cbn in SX, SY. eauto.
Qed.

Lemma step_record_inv (props : TouchProps) (te : bool) (i : Signal)
    (s : State) :
  GestureInv props (gesture s) ->
  RecordInv (gesture s) ->
  RecordInv (gesture (stateOf (step props te i s))).
Proof.
  intros Hg Hr. destruct i as [e|e|e|c]; cbn [step].
  - rewrite startHandler_eq. apply RecordInv_pressedAt.
  - destruct (JS.truthy (isPressed (gesture s))) eqn:Hp.
    + destruct (inv_startT _ _ Hg Hp) as [t0 Ht].
      destruct (multiTouch e) eqn:Hm.
      * rewrite onMove_multi, (onEnd_pressed props te e s t0) by assumption.
        apply RecordInv_empty.
      * rewrite (onMove_single props te e s t0) by assumption.
        apply RecordInv_moved; assumption.
    + rewrite onMove_idle by assumption. assumption.
  - destruct (JS.truthy (isPressed (gesture s))) eqn:Hp.
    + destruct (inv_startT _ _ Hg Hp) as [t0 Ht].
      rewrite (onEnd_pressed props te e s t0) by assumption.
      apply RecordInv_empty.
    + rewrite onEnd_idle by assumption. apply RecordInv_empty.
  - rewrite postGestureClick_eq.
    destruct (JS.truthy (didSlide s)); cbn; assumption.
Qed.

Lemma run_record_inv (props : TouchProps) (te : bool) (sigs : list Signal) :
  forall s,
    GestureInv props (gesture s) ->
    RecordInv (gesture s) ->
    RecordInv (gesture (run props te s sigs)).
Proof.
  induction sigs as [|i rest IH]; intros s Hg Hr; cbn [run]; [assumption|].
  apply IH; [apply step_inv|apply step_record_inv]; assumption.
Qed.

(** A property of the effects of one handler run that holds in every state
    satisfying the invariants holds of the whole trace of a run. *)
Lemma runTrace_Forall (props : TouchProps) (te : bool)
    (P : Effect -> Prop) :
  (forall s i,
      GestureInv props (gesture s) ->
      RecordInv (gesture s) ->
      Forall P (traceOf (step props te i s))) ->
  forall sigs s,
    GestureInv props (gesture s) ->
    RecordInv (gesture s) ->
    Forall P (runTrace props te s sigs).
Proof.
  intros Hstep. induction sigs as [|i rest IH]; intros s Hg Hr;
    cbn [runTrace]; [constructor|].
  apply Forall_app. split; [apply Hstep; assumption|].
  apply IH; [apply step_inv|apply step_record_inv]; assumption.
Qed.

Lemma runTrace_app (props : TouchProps) (te : bool) (xs ys : list Signal) :
  forall s,
    runTrace props te s (xs ++ ys)
    = runTrace props te s xs ++ runTrace props te (run props te s xs) ys.
Proof.
  induction xs as [|x xs IH]; intros s; cbn [runTrace run app]; [reflexivity|].
  rewrite IH, app_assoc. reflexivity.
Qed.

Lemma run_snoc (props : TouchProps) (te : bool) (xs : list Signal)
    (i : Signal) (s : State) :
  run props te s (xs ++ [i])
  = stateOf (step props te i (run props te s xs)).
Proof.
  revert s. induction xs as [|x xs IH]; intros s; cbn [run app];
    [reflexivity|apply IH].
Qed.

Lemma Forall_callsFor (P : Effect -> Prop) (g : Gesture)
    (e : VKUITouchEvent) (t0 : Z) (hs : list (option Handler)) :
  (forall h, In h (present hs) -> P (Call h (snapshot g (now e - t0)) e)) ->
  Forall P (callsFor g e t0 hs).
Proof.
  induction hs as [|[h|] hs IH]; intros HP; cbn.
  - constructor.
  - constructor; [apply HP; left; reflexivity|].
    apply IH. intros h' Hin. apply HP. right. exact Hin.
  - apply IH. exact HP.
Qed.

(** Effects other than calls of gesture callbacks. *)
Ltac quiet_effects :=
  unfold stopTrace, endTail;
  repeat match goal with
         | |- context [if ?b then _ else _] => destruct b
         end;
  cbn; repeat constructor.

(** X1.  No handler raises in a state the component can reach: whatever
    the sequence of signals, the next handler run returns.  The time of the
    start, which [handle] dereferences for every element of a handler
    list, is always there when [handle] is reached. *)
Theorem handlers_never_raise
    (props : TouchProps) (te : bool) (sigs : list Signal) (i : Signal) :
  returned (step props te i (run props te initial sigs)) = true.
Proof.
  apply step_inv. apply reachable_inv.
Qed.

(** X2.  [handle] needs the start time even when no callback is supplied:
    on a record without [startT] and a handler list that is not empty it
    raises at the first element, after [stopPropagation] and before any
    callback, whatever the elements are; on an empty handler list it
    returns. *)
Theorem handle_raises_without_start_time
    (props : TouchProps) (e : VKUITouchEvent) (s : State)
    (cb : option Handler) (hs : list (option Handler)) :
  startT (gesture s) = None ->
  handle props e (cb :: hs) s = Throw s (stopTrace props e)
  /\ handle props e [] s = Ok tt s (stopTrace props e).
Proof.
  intros Ht. unfold handle, stopTrace, when.
  destruct (stopPropagation props); cbn [forEach];
    unfold bind, emit, ret, getGesture, throw; cbn; rewrite Ht;
    split; reflexivity.
Qed.

Lemma handle_raises_without_start_time_witness :
  let e := touch "touchend" 0 0 0 10 in
  startT (gesture initial) = None
  /\ handle sampleProps e [None; None; None] initial = Throw initial [].
Proof.
  intros e.
  assert (H : startT (gesture initial) = None) by reflexivity.
  split; [exact H|].
  exact (proj1 (handle_raises_without_start_time sampleProps e initial
                  None [None; None] H)).
Defined.

Lemma payload_snapshot (g : Gesture) (e : VKUITouchEvent) (t0 : Z)
    (h : Handler) :
  RecordInv g ->
  JS.truthy (isPressed g) = true ->
  startT g = Some t0 ->
  payloadOk (Call h (snapshot g (now e - t0)) e).
Proof.
  intros Hr Hp Ht.
  destruct (inv_start _ Hr Hp) as (sx & sy & t1 & HX & HY & HT).
  cbn. split; [assumption|].
  exists sx, sy, t0. auto.
Qed.

Lemma step_payload (props : TouchProps) (te : bool) (s : State)
    (i : Signal) :
  GestureInv props (gesture s) ->
  RecordInv (gesture s) ->
  Forall payloadOk (traceOf (step props te i s)).
Proof.
  intros Hg Hr. destruct i as [e|e|e|c]; cbn [step].
  - rewrite startHandler_eq. cbn [traceOf].
    apply Forall_app; split; [|apply Forall_app; split].
    + quiet_effects.
    + apply Forall_callsFor. intros h _.
      apply payload_snapshot; [apply RecordInv_pressedAt|reflexivity..].
    + destruct te; repeat constructor.
  - destruct (JS.truthy (isPressed (gesture s))) eqn:Hp.
    + destruct (inv_startT _ _ Hg Hp) as [t0 Ht].
      destruct (multiTouch e) eqn:Hm.
      * rewrite onMove_multi, (onEnd_pressed props te e s t0) by assumption.
        cbn [traceOf]. apply Forall_app; split; [|apply Forall_app; split].
        -- quiet_effects.
        -- apply Forall_callsFor. intros h _.
           apply payload_snapshot; assumption.
        -- quiet_effects.
      * rewrite (onMove_single props te e s t0) by assumption.
        cbn [traceOf]. unfold movedTrace.
        destruct (JS.truthy (isSlide (moved props (gesture s) e)));
          [|constructor].
        apply Forall_app. split; [quiet_effects|].
        apply Forall_callsFor. intros h _.
        destruct (moved_frame props (gesture s) e) as (FP & FT & _).
        apply payload_snapshot;
          [apply RecordInv_moved; assumption|congruence..].
    + rewrite onMove_idle by assumption. constructor.
  - destruct (JS.truthy (isPressed (gesture s))) eqn:Hp.
    + destruct (inv_startT _ _ Hg Hp) as [t0 Ht].
      rewrite (onEnd_pressed props te e s t0) by assumption.
      cbn [traceOf]. apply Forall_app; split; [|apply Forall_app; split].
      * quiet_effects.
      * apply Forall_callsFor. intros h _.
        apply payload_snapshot; assumption.
      * quiet_effects.
    + rewrite onEnd_idle by assumption. cbn [traceOf]. quiet_effects.
  - rewrite postGestureClick_eq.
    destruct (JS.truthy (didSlide s)), (closestA c), (noSlideClick props),
      (onClickCapture props); cbn; repeat constructor.
Qed.

(** X3.  Over any sequence of signals, every gesture callback is called
    with a pressed gesture that has numeric start coordinates, a start
    time, and a duration equal to the clock of the event it is called for
    minus that start time. *)
Theorem callbacks_get_pressed_gesture_with_duration
    (props : TouchProps) (te : bool) (sigs : list Signal) :
  Forall payloadOk (runTrace props te initial sigs).
Proof.
  apply runTrace_Forall.
  - intros s i Hg Hr. apply step_payload; assumption.
  - apply GestureInv_empty.
  - apply RecordInv_empty.
Qed.

Lemma present_start_not_move (a b c : bool) (h : Handler) :
  In h (present [prop a OnStart; prop b OnStartX; prop c OnStartY]) ->
  isMoveHandler h = false.
Proof.
  unfold prop. destruct a, b, c; cbn; intros Hin;
    repeat (destruct Hin as [<-|Hin]; [reflexivity|]); destruct Hin.
Qed.

Lemma present_end_not_move_in (a b c : bool) (sx sy : option bool)
    (h : Handler) :
  In h (present [prop a OnEnd;
                 guarded sy (prop b OnEndY);
                 guarded sx (prop c OnEndX)]) ->
  isMoveHandler h = false.
Proof.
  intros Hin.
  pose proof (present_end_not_move a b c sx sy) as Hall.
  rewrite Forall_forall in Hall. apply Hall. exact Hin.
Qed.

Lemma move_payload_moved (props : TouchProps) (g : Gesture)
    (e : VKUITouchEvent) (d : Z) (h : Handler) :
  RecordInv g ->
  JS.truthy (isPressed g) = true ->
  JS.truthy (isSlide (moved props g e)) = true ->
  movePayloadOk (Call h (snapshot (moved props g e) d) e).
Proof.
  intros Hr Hp Hs _.
  destruct (inv_start _ Hr Hp) as (sx & sy & t0 & HX & HY & HT).
  destruct (moved_frame props g e) as (_ & _ & FX & FY).
  destruct (moved_shift props g e Hs) as (SX & SY & SXA & SYA).
  rewrite HX in SX, SXA. rewrite HY in SY, SYA. cbn in SX, SY, SXA, SYA.
  cbn [snapshot isSlide startX startY shiftX shiftY shiftXAbs shiftYAbs].
  split; [assumption|].
  exists sx, sy. rewrite FX, FY. auto 7.
Qed.

Lemma step_move_payload (props : TouchProps) (te : bool) (s : State)
    (i : Signal) :
  GestureInv props (gesture s) ->
  RecordInv (gesture s) ->
  Forall movePayloadOk (traceOf (step props te i s)).
Proof.
  intros Hg Hr. destruct i as [e|e|e|c]; cbn [step].
  - rewrite startHandler_eq. cbn [traceOf].
    apply Forall_app; split; [|apply Forall_app; split].
    + quiet_effects.
    + apply Forall_callsFor. intros h Hin Hmove.
      apply present_start_not_move in Hin. congruence.
    + destruct te; repeat constructor.
  - destruct (JS.truthy (isPressed (gesture s))) eqn:Hp.
    + destruct (inv_startT _ _ Hg Hp) as [t0 Ht].
      destruct (multiTouch e) eqn:Hm.
      * rewrite onMove_multi, (onEnd_pressed props te e s t0) by assumption.
        cbn [traceOf]. apply Forall_app; split; [|apply Forall_app; split].
        -- quiet_effects.
        -- apply Forall_callsFor. intros h Hin Hmove.
           apply present_end_not_move_in in Hin. congruence.
        -- quiet_effects.
      * rewrite (onMove_single props te e s t0) by assumption.
        cbn [traceOf]. unfold movedTrace.
        destruct (JS.truthy (isSlide (moved props (gesture s) e))) eqn:Hs;
          [|constructor].
        apply Forall_app. split; [quiet_effects|].
        apply Forall_callsFor. intros h _.
        apply move_payload_moved; assumption.
    + rewrite onMove_idle by assumption. constructor.
  - destruct (JS.truthy (isPressed (gesture s))) eqn:Hp.
    + destruct (inv_startT _ _ Hg Hp) as [t0 Ht].
      rewrite (onEnd_pressed props te e s t0) by assumption.
      cbn [traceOf]. apply Forall_app; split; [|apply Forall_app; split].
      * quiet_effects.
      * apply Forall_callsFor. intros h Hin Hmove.
        apply present_end_not_move_in in Hin. congruence.
      * quiet_effects.
    + rewrite onEnd_idle by assumption. cbn [traceOf]. quiet_effects.
  - rewrite postGestureClick_eq.
    destruct (JS.truthy (didSlide s)), (closestA c), (noSlideClick props),
      (onClickCapture props); cbn; repeat constructor.
Qed.

(** X4.  Over any sequence of signals, every move callback is called with
    a slide gesture whose shifts are those of the very event it is called
    for: [shiftX] and [shiftY] are the event's coordinates minus the start
    coordinates, and [shiftXAbs] and [shiftYAbs] their absolute values. *)
Theorem move_callbacks_get_shifts_of_their_event
    (props : TouchProps) (te : bool) (sigs : list Signal) :
  Forall movePayloadOk (runTrace props te initial sigs).
Proof.
  apply runTrace_Forall.
  - intros s i Hg Hr. apply step_move_payload; assumption.
  - apply GestureInv_empty.
  - apply RecordInv_empty.
Qed.

Lemma called_Forall (Q : Handler -> Prop) (tr : list Effect) :
  Forall (fun x => match x with Call h _ _ => Q h | _ => True end) tr ->
  Forall Q (called tr).
Proof.
  induction 1 as [|x tr Hx _ IH]; cbn; [constructor|].
  destruct x; cbn; try assumption. constructor; assumption.
Qed.

Lemma gated_registered (props : TouchProps) (g : Gesture) (d : Z)
    (h : Handler) :
  GestureInv props g ->
  axisGated h (snapshot g d) ->
  axisRegistered props h.
Proof.
  intros Hg. destruct h; cbn; intros Hgate; try exact I;
    solve [apply (inv_slideX _ _ Hg Hgate) | apply (inv_slideY _ _ Hg Hgate)].
Qed.

Lemma step_registered (props : TouchProps) (te : bool) (s : State)
    (i : Signal) :
  GestureInv props (gesture s) ->
  Forall (fun x => match x with
                   | Call h _ _ => axisRegistered props h
                   | _ => True
                   end)
    (traceOf (step props te i s)).
Proof.
  intros Hg. destruct i as [e|e|e|c]; cbn [step].
  - rewrite startHandler_eq. cbn [traceOf].
    apply Forall_app; split; [|apply Forall_app; split].
    + quiet_effects.
    + apply Forall_callsFor. intros h Hin.
      apply (gated_registered props (pressedAt e) 0 h);
        [apply GestureInv_pressedAt|].
      eapply present_start_gated. exact Hin.
    + destruct te; repeat constructor.
  - destruct (JS.truthy (isPressed (gesture s))) eqn:Hp.
    + destruct (inv_startT _ _ Hg Hp) as [t0 Ht].
      destruct (multiTouch e) eqn:Hm.
      * rewrite onMove_multi, (onEnd_pressed props te e s t0) by assumption.
        cbn [traceOf]. apply Forall_app; split; [|apply Forall_app; split].
        -- quiet_effects.
        -- apply Forall_callsFor. intros h Hin.
           apply (gated_registered props (gesture s) 0 h Hg).
           eapply present_end_gated. exact Hin.
        -- quiet_effects.
      * rewrite (onMove_single props te e s t0) by assumption.
        cbn [traceOf]. unfold movedTrace.
        destruct (JS.truthy (isSlide (moved props (gesture s) e)));
          [|constructor].
        apply Forall_app. split; [quiet_effects|].
        apply Forall_callsFor. intros h Hin.
        apply (gated_registered props (moved props (gesture s) e) 0 h);
          [apply GestureInv_moved; assumption|].
        eapply present_move_gated. exact Hin.
    + rewrite onMove_idle by assumption. constructor.
  - destruct (JS.truthy (isPressed (gesture s))) eqn:Hp.
    + destruct (inv_startT _ _ Hg Hp) as [t0 Ht].
      rewrite (onEnd_pressed props te e s t0) by assumption.
      cbn [traceOf]. apply Forall_app; split; [|apply Forall_app; split].
      * quiet_effects.
      * apply Forall_callsFor. intros h Hin.
        apply (gated_registered props (gesture s) 0 h Hg).
        eapply present_end_gated. exact Hin.
      * quiet_effects.
    + rewrite onEnd_idle by assumption. cbn [traceOf]. quiet_effects.
  - rewrite postGestureClick_eq.
    destruct (JS.truthy (didSlide s)), (closestA c), (noSlideClick props),
      (onClickCapture props); cbn; repeat constructor.
Qed.

(** X5.  Over any sequence of signals, an axis-specific move or end
    callback is called only for a consumer that supplied the move callback
    of that axis or the generic move callback: [onEndX] alone, without
    [onMoveX] or [onMove], is never called. *)
Theorem axis_callbacks_need_a_move_callback
    (props : TouchProps) (te : bool) (sigs : list Signal) :
  Forall (axisRegistered props) (called (runTrace props te initial sigs)).
Proof.
  apply called_Forall. apply runTrace_Forall.
  - intros s i Hg _. apply step_registered. assumption.
  - apply GestureInv_empty.
  - apply RecordInv_empty.
Qed.

Lemma stopped_app (a b : list Effect) :
  stopped (a ++ b) = stopped a ++ stopped b.
Proof. apply flat_map_app. Qed.

Lemma leaves_app (a b : list Effect) : leaves (a ++ b) = leaves a ++ leaves b.
Proof. apply flat_map_app. Qed.

Lemma subscriptions_app (a b : list Effect) :
  subscriptions (a ++ b) = subscriptions a ++ subscriptions b.
Proof. apply flat_map_app. Qed.

Lemma callsFor_quiet (g : Gesture) (e : VKUITouchEvent) (t0 : Z)
    (hs : list (option Handler)) :
  stopped (callsFor g e t0 hs) = []
  /\ leaves (callsFor g e t0 hs) = []
  /\ subscriptions (callsFor g e t0 hs) = [].
Proof.
  induction hs as [|[h|] hs IH]; cbn; auto.
Qed.

Lemma stopTrace_read (props : TouchProps) (e : VKUITouchEvent) :
  stopped (stopTrace props e) = (if stopPropagation props then [e] else [])
  /\ leaves (stopTrace props e) = []
  /\ subscriptions (stopTrace props e) = [].
Proof. unfold stopTrace. destruct (stopPropagation props); cbn; auto. Qed.

Lemma endTail_read (props : TouchProps) (te : bool) (e : VKUITouchEvent) :
  stopped (endTail props te e) = []
  /\ leaves (endTail props te e)
     = (if isTouchEnd e && onLeave props then [e] else [])
  /\ subscriptions (endTail props te e) = (if te then [] else [Null]).
Proof.
  unfold endTail, isTouchEnd.
  destruct ((String.eqb (type e) "touchend" || String.eqb (type e) "touchcancel")
            && onLeave props), te; cbn; auto.
Qed.

(** What one handler run does besides calling gesture callbacks, in a
    state that satisfies the invariant. *)
Lemma step_side_effects (props : TouchProps) (te : bool) (s : State)
    (i : Signal) :
  GestureInv props (gesture s) ->
  stopped (traceOf (step props te i s))
  = (if stopPropagation props && dispatches props s i then eventOf i else [])
  /\ leaves (traceOf (step props te i s))
     = (if endsGesture s i && onLeave props
        then filter isTouchEnd (eventOf i) else [])
  /\ subscriptions (traceOf (step props te i s))
     = (if te then []
        else match i with
             | Start _ => [Document]
             | _ => if endsGesture s i then [Null] else []
             end)
  /\ JS.truthy (isPressed (gesture (stateOf (step props te i s))))
     = match i with
       | Start _ => true
       | _ => if endsGesture s i then false
              else JS.truthy (isPressed (gesture s))
       end.
Proof.
  intros Hg. destruct i as [e|e|e|c]; cbn [step dispatches endsGesture eventOf].
  - rewrite startHandler_eq. cbn [traceOf stateOf gesture].
    rewrite !stopped_app, !leaves_app, !subscriptions_app.
    destruct (stopTrace_read props e) as (-> & -> & ->).
    destruct (callsFor_quiet (pressedAt e) e (now e)
                [prop (onStart props) OnStart;
                 prop (onStartX props) OnStartX;
                 prop (onStartY props) OnStartY]) as (-> & -> & ->).
    destruct (stopPropagation props), te; cbn; auto.
  - destruct (JS.truthy (isPressed (gesture s))) eqn:Hp; cbn [andb].
    + destruct (inv_startT _ _ Hg Hp) as [t0 Ht].
      destruct (multiTouch e) eqn:Hm; cbn [orb].
      * rewrite onMove_multi, (onEnd_pressed props te e s t0) by assumption.
        cbn [traceOf stateOf gesture].
        rewrite !stopped_app, !leaves_app, !subscriptions_app.
        destruct (stopTrace_read props e) as (-> & -> & ->).
        destruct (callsFor_quiet (gesture s) e t0
                    [prop (_onEnd props) OnEnd;
                     guarded (isSlideY (gesture s)) (prop (onEndY props) OnEndY);
                     guarded (isSlideX (gesture s)) (prop (onEndX props) OnEndX)])
          as (-> & -> & ->).
        destruct (endTail_read props te e) as (-> & -> & ->).
        cbn [filter].
        destruct (stopPropagation props), (isTouchEnd e), (onLeave props), te;
          cbn; auto.
      * rewrite (onMove_single props te e s t0) by assumption.
        cbn [traceOf stateOf gesture].
        destruct (moved_frame props (gesture s) e) as (-> & _).
        rewrite Hp. unfold movedTrace.
        destruct (JS.truthy (isSlide (moved props (gesture s) e))).
        -- rewrite !stopped_app, !leaves_app, !subscriptions_app.
           destruct (stopTrace_read props e) as (-> & -> & ->).
           match goal with
           | |- context [callsFor ?g ?ev ?t ?hs] =>
               destruct (callsFor_quiet g ev t hs) as (-> & -> & ->)
           end.
           destruct (stopPropagation props), te; cbn; auto.
        -- rewrite andb_false_r. destruct te; cbn; auto.
    + rewrite onMove_idle by assumption. cbn [traceOf stateOf].
      rewrite Hp, andb_false_r. destruct te; cbn; auto.
  - destruct (JS.truthy (isPressed (gesture s))) eqn:Hp.
    + destruct (inv_startT _ _ Hg Hp) as [t0 Ht].
      rewrite (onEnd_pressed props te e s t0) by assumption.
      cbn [traceOf stateOf gesture].
      rewrite !stopped_app, !leaves_app, !subscriptions_app.
      destruct (stopTrace_read props e) as (-> & -> & ->).
      destruct (callsFor_quiet (gesture s) e t0
                  [prop (_onEnd props) OnEnd;
                   guarded (isSlideY (gesture s)) (prop (onEndY props) OnEndY);
                   guarded (isSlideX (gesture s)) (prop (onEndX props) OnEndX)])
        as (-> & -> & ->).
      destruct (endTail_read props te e) as (-> & -> & ->).
      cbn [filter].
      destruct (stopPropagation props), (isTouchEnd e), (onLeave props), te;
        cbn; auto.
    + rewrite onEnd_idle by assumption. cbn [traceOf stateOf gesture].
      destruct (endTail_read props te e) as (-> & -> & ->).
      cbn [filter]. rewrite andb_false_r.
      destruct (isTouchEnd e), (onLeave props), te; cbn; auto.
  - rewrite postGestureClick_eq. rewrite andb_false_r.
    destruct (JS.truthy (didSlide s)), (closestA c), (noSlideClick props),
      (onClickCapture props), te; cbn; auto.
Qed.

(** X6.  In a state the component can reach, a handler calls
    [stopPropagation] on the raw event exactly when the [stopPropagation]
    prop is set and the signal reaches [handle]: on every start, on every
    end of a pressed gesture, and on a single-touch move sample after which
    the gesture is a slide.  A move sample of a gesture that is not a slide
    and a signal outside a press are never stopped. *)
Theorem propagation_stopped_exactly_on_dispatch
    (props : TouchProps) (te : bool) (sigs : list Signal) (i : Signal) :
  let s := run props te initial sigs in
  stopped (traceOf (step props te i s))
  = if stopPropagation props && dispatches props s i then eventOf i else [].
Proof.
  intros s. apply step_side_effects. apply reachable_inv.
Qed.

(** X7.  In a state the component can reach, [onLeave] is called by a
    handler exactly when the consumer supplied it, the signal runs the end
    handler (an end or cancel signal, pressed or not, or a multi-touch
    move sample while pressed) and the type of the raw event is
    [touchend] or [touchcancel]; it is then called once, with that event.
    Starts, other move samples and clicks never call it. *)
Theorem leave_synthesized_exactly_on_touch_end
    (props : TouchProps) (te : bool) (sigs : list Signal) (i : Signal) :
  let s := run props te initial sigs in
  leaves (traceOf (step props te i s))
  = if endsGesture s i && onLeave props
    then filter isTouchEnd (eventOf i) else [].
Proof.
  intros s. apply step_side_effects. apply reachable_inv.
Qed.

Lemma run_subscriptions_touch (props : TouchProps) (sigs : list Signal) :
  forall s,
    GestureInv props (gesture s) ->
    subscriptions (runTrace props true s sigs) = [].
Proof.
  induction sigs as [|i rest IH]; intros s Hg; cbn [runTrace]; [reflexivity|].
  rewrite subscriptions_app.
  destruct (step_side_effects props true s i Hg) as (_ & _ & -> & _).
  apply IH. apply step_inv. assumption.
Qed.

(** X8.  Where touch is available the handlers never call [subscribe]:
    over any sequence of signals the move and end listeners stay bound
    where the component bound them when it mounted. *)
Theorem touch_environment_never_resubscribes
    (props : TouchProps) (sigs : list Signal) :
  subscriptions (runTrace props true initial sigs) = [].
Proof.
  apply run_subscriptions_touch. apply GestureInv_empty.
Qed.

Lemma last_app_cases (A : Type) (a b : list A) (d : A) :
  last (a ++ b) d = match b with [] => last a d | _ => last b d end.
Proof.
  destruct b as [|x b]; [rewrite app_nil_r; reflexivity|].
  revert x. induction b as [|y b IH] using rev_ind; intros x.
  - apply last_last.
  - rewrite app_comm_cons, app_assoc, !last_last. reflexivity.
Qed.

(** X9.  Where touch is not available, after any sequence of signals the
    last call of [subscribe] was for the document exactly when a gesture
    is pressed: the document listeners are bound by a start and released
    by whatever ends the gesture, and nothing else touches them. *)
Theorem document_listeners_bound_exactly_while_pressed
    (props : TouchProps) (sigs : list Signal) :
  last (subscriptions (runTrace props false initial sigs)) Null = Document
  <-> JS.truthy (isPressed (gesture (run props false initial sigs))) = true.
Proof.
  induction sigs as [|i sigs IH] using rev_ind.
  - cbn. split; discriminate.
  - rewrite runTrace_app, run_snoc, subscriptions_app. cbn [runTrace].
    rewrite app_nil_r.
    pose proof (reachable_inv props false sigs) as Hg.
    destruct (step_side_effects props false _ i Hg) as (_ & _ & Hsub & Hpr).
    rewrite Hsub, Hpr, last_app_cases.
    destruct i as [e|e|e|c]; cbn [endsGesture].
    + cbn. split; reflexivity.
    + destruct (JS.truthy (isPressed _) && multiTouch e); cbn;
        [split; discriminate|exact IH].
    + cbn. split; discriminate.
    + exact IH.
Qed.

(** X10.  The gesture record keeps its shape in every state the component
    can reach: [isX] and [isY] are never both set, nor are [isSlideX] and
    [isSlideY]; [isSlide] is set exactly when one of these two is; the
    shift fields are there exactly when the gesture is a slide, and the
    absolute shifts are then the absolute values of the shifts; and
    outside a press the record is the empty object. *)
Theorem gesture_record_shape
    (props : TouchProps) (te : bool) (sigs : list Signal) :
  let g := gesture (run props te initial sigs) in
  JS.truthy (isX g) && JS.truthy (isY g) = false
  /\ JS.truthy (isSlideX g) && JS.truthy (isSlideY g) = false
  /\ JS.truthy (isSlide g) = JS.truthy (isSlideX g) || JS.truthy (isSlideY g)
  /\ (JS.truthy (isSlide g) = true <-> shiftX g <> None)
  /\ (JS.truthy (isSlide g) = true <-> shiftY g <> None)
  /\ shiftXAbs g = option_map JS.abs (shiftX g)
  /\ shiftYAbs g = option_map JS.abs (shiftY g)
  /\ (JS.truthy (isPressed g) = false -> g = emptyGesture).
Proof.
  intros g.
  pose proof (reachable_inv props te sigs) as Hg.
  assert (Hr : RecordInv g)
    by (apply run_record_inv; [apply GestureInv_empty|apply RecordInv_empty]).
  fold g in Hg.
  split; [exact (inv_axes _ _ Hg)|].
  split; [exact (GestureInv_exclusive _ _ Hg)|].
  split; [exact (inv_slide _ _ Hg)|].
  split; [|split].
  - split.
    + intros Hs. destruct (inv_present _ Hr Hs) as (x & y & -> & _).
      discriminate.
    + intros Hne. destruct (JS.truthy (isSlide g)) eqn:Hs; [reflexivity|].
      destruct (inv_shift _ _ Hg Hs) as (HX & _). congruence.
  - split.
    + intros Hs. destruct (inv_present _ Hr Hs) as (x & y & _ & ->).
      discriminate.
    + intros Hne. destruct (JS.truthy (isSlide g)) eqn:Hs; [reflexivity|].
      destruct (inv_shift _ _ Hg Hs) as (_ & HY & _). congruence.
  - split; [exact (proj1 (inv_abs _ Hr))|].
    split; [exact (proj2 (inv_abs _ Hr))|].
    apply reachable_idle_empty.
Qed.

Lemma moved_locked_flags (props : TouchProps) (g : Gesture)
    (e : VKUITouchEvent) :
  JS.truthy (isX g) || JS.truthy (isY g) = true ->
  isSlideX (moved props g e) = isSlideX g
  /\ isSlideY (moved props g e) = isSlideY g
  /\ isSlide (moved props g e) = isSlide g.
Proof.
  intros Hl. unfold moved.
  replace (negb (JS.truthy (isX g)) && negb (JS.truthy (isY g))) with false
    by (destruct (JS.truthy (isX g)), (JS.truthy (isY g));
        reflexivity || discriminate).
  destruct (JS.truthy (isSlide g)); cbn; auto.
Qed.

Lemma track_locked_flags (props : TouchProps) (ms : list VKUITouchEvent) :
  forall g,
    JS.truthy (isX g) || JS.truthy (isY g) = true ->
    isSlideX (track props g ms) = isSlideX g
    /\ isSlideY (track props g ms) = isSlideY g
    /\ isSlide (track props g ms) = isSlide g.
Proof.
  induction ms as [|m ms IH]; intros g Hl; [cbn; auto|].
  rewrite track_cons.
  destruct (moved_locked props g m Hl) as [HX HY].
  destruct (moved_locked_flags props g m Hl) as (H1 & H2 & H3).
  destruct (IH (moved props g m)) as (-> & -> & ->); [|auto].
  rewrite HX, HY. assumption.
Qed.

Lemma decided_flags (props : TouchProps) (e0 e : VKUITouchEvent) :
  isSlideX (decided props e0 e)
  = Some (lockX props e0 e && (onMoveX props || _onMove props))
  /\ isSlideY (decided props e0 e)
     = Some (lockY props e0 e && (onMoveY props || _onMove props))
  /\ isSlide (decided props e0 e)
     = Some (lockX props e0 e && (onMoveX props || _onMove props)
             || lockY props e0 e && (onMoveY props || _onMove props)).
Proof.
  unfold decided. destruct (_ && _ || _ && _) eqn:H; cbn; rewrite ?H; auto.
Qed.

(** The state after a start, samples that lock nothing, a sample [m] that
    decides, and further samples. *)
Lemma run_decided (props : TouchProps) (te : bool) (s0 : State)
    (e0 : VKUITouchEvent) (pre : list VKUITouchEvent) (m : VKUITouchEvent)
    (post : list VKUITouchEvent) :
  Forall singleTouch (pre ++ m :: post) ->
  Forall (noLock props e0) pre ->
  lockX props e0 m || lockY props e0 m = true ->
  let s := run props te s0 (Start e0 :: map Move (pre ++ m :: post)) in
  didSlide s = didSlide s0
  /\ JS.truthy (isPressed (gesture s)) = true
  /\ startT (gesture s) = Some (now e0)
  /\ isSlideX (gesture s)
     = Some (lockX props e0 m && (onMoveX props || _onMove props))
  /\ isSlideY (gesture s)
     = Some (lockY props e0 m && (onMoveY props || _onMove props))
  /\ isSlide (gesture s)
     = Some (lockX props e0 m && (onMoveX props || _onMove props)
             || lockY props e0 m && (onMoveY props || _onMove props))
  /\ JS.truthy (isX (gesture s)) || JS.truthy (isY (gesture s)) = true.
Proof.
  intros Hall Hpre Hlock s. unfold s.
  rewrite run_gesture by assumption. cbn [gesture didSlide].
  apply Forall_app in Hall. destruct Hall as [Hs_pre _].
  assert (Hun : Unlocked e0 (track props (pressedAt e0) pre))
    by (apply track_unlocked; [left; reflexivity|assumption]).
  rewrite track_app, track_cons, (moved_unlocked props e0 m _ Hun).
  destruct (decided_axes props e0 m) as [HdX HdY].
  assert (Hl : JS.truthy (isX (decided props e0 m))
               || JS.truthy (isY (decided props e0 m)) = true).
  { rewrite HdX, HdY.
    destruct (lockX props e0 m), (lockY props e0 m);
      reflexivity || discriminate. }
  destruct (track_locked_flags props post _ Hl) as (-> & -> & ->).
  destruct (track_locked props post _ Hl) as (-> & ->).
  destruct (track_frame props post (decided props e0 m)) as (-> & -> & _).
  destruct (decided_flags props e0 m) as (-> & -> & ->).
  split; [reflexivity|].
  assert (HP : isPressed (decided props e0 m) = Some true
               /\ startT (decided props e0 m) = Some (now e0))
    by (unfold decided; destruct (_ && _ || _ && _); cbn; auto).
  destruct HP as [-> ->]. auto 8.
Qed.

(** X11.  A tap is never taken for a slide.  After a start, single-touch
    move samples none of which meets a lock condition, and an end, the
    did-slide flag is unset whatever it held before the gesture, and the
    click that follows is forwarded to the consumer as it is: nothing is
    prevented or stopped, even with [noSlideClick] and inside a link. *)
Theorem tap_click_is_forwarded
    (props : TouchProps) (te : bool) (s0 : State) (e0 : VKUITouchEvent)
    (ms : list VKUITouchEvent) (e : VKUITouchEvent) (c : ClickEvent) :
  Forall singleTouch ms ->
  Forall (noLock props e0) ms ->
  let s := run props te s0 ((Start e0 :: map Move ms) ++ [End e]) in
  gesture s = emptyGesture
  /\ JS.truthy (didSlide s) = false
  /\ postGestureClick props c s
     = Ok tt s (if onClickCapture props then [ClickForward c] else []).
Proof.
  intros Hsingle Hno s.
  assert (Hs : gesture s = emptyGesture /\ JS.truthy (didSlide s) = false).
  { unfold s. rewrite run_snoc, run_gesture by assumption. cbn [step].
    assert (Hun : Unlocked e0 (track props (pressedAt e0) ms))
      by (apply track_unlocked; [left; reflexivity|assumption]).
    destruct (Unlocked_pressed e0 _ Hun) as [Hp Ht].
    destruct (Unlocked_axes e0 _ Hun) as (_ & _ & Hslide).
    rewrite (onEnd_pressed props te e _ (now e0)) by assumption.
    cbn [stateOf gesture didSlide]. auto. }
  destruct Hs as [Hg Hd]. split; [assumption|]. split; [assumption|].
  rewrite postGestureClick_eq, Hd. reflexivity.
Qed.

Lemma tap_click_is_forwarded_witness :
  let e0 := touch "touchstart" 0 0 1 100 in
  let a := touch "touchmove" 1 (-2) 1 110 in
  let lift := touch "touchend" 1 (-2) 0 120 in
  let c := {| closestA := true |} in
  let stale := {| gesture := emptyGesture; didSlide := Some true |} in
  let s := run sampleProps true stale ((Start e0 :: map Move [a]) ++ [End lift]) in
  Forall singleTouch [a]
  /\ Forall (noLock sampleProps e0) [a]
  /\ traceOf (postGestureClick sampleProps c s) = [ClickForward c].
Proof.
  intros e0 a lift c stale s.
  assert (H1 : Forall singleTouch [a]) by (repeat constructor).
  assert (H2 : Forall (noLock sampleProps e0) [a]) by (repeat constructor).
  split; [exact H1|]. split; [exact H2|].
  destruct (tap_click_is_forwarded sampleProps true stale e0 [a] lift c H1 H2)
    as (_ & _ & Hclick).
  fold s in Hclick. rewrite Hclick. reflexivity.
Defined.

(** X12.  The verdict of a gesture is given by the sample that decides the
    axis.  After a start, single-touch samples that lock nothing, a sample
    [m] that locks an axis, any further single-touch samples, and an end,
    the gesture record is empty and the did-slide flag says whether the
    consumer supplied a move callback for the axis of [m] (that of the
    axis or the generic one); the click that follows is gated when it
    does and forwarded as it is when it does not. *)
Theorem slide_verdict_of_deciding_sample
    (props : TouchProps) (te : bool) (s0 : State) (e0 : VKUITouchEvent)
    (pre : list VKUITouchEvent) (m : VKUITouchEvent)
    (post : list VKUITouchEvent) (e : VKUITouchEvent) (c : ClickEvent) :
  Forall singleTouch (pre ++ m :: post) ->
  Forall (noLock props e0) pre ->
  lockX props e0 m || lockY props e0 m = true ->
  let verdict :=
    lockX props e0 m && (onMoveX props || _onMove props)
    || lockY props e0 m && (onMoveY props || _onMove props) in
  let forwarded := if onClickCapture props then [ClickForward c] else [] in
  let s :=
    run props te s0 ((Start e0 :: map Move (pre ++ m :: post)) ++ [End e]) in
  gesture s = emptyGesture
  /\ didSlide s = Some verdict
  /\ traceOf (postGestureClick props c s)
     = if verdict
       then (if closestA c then [ClickPreventDefault c] else [])
            ++ (if noSlideClick props then [ClickStopPropagation c]
                else forwarded)
       else forwarded.
Proof.
  intros Hall Hpre Hlock verdict forwarded s.
  destruct (run_decided props te s0 e0 pre m post Hall Hpre Hlock)
    as (_ & Hp & Ht & _ & _ & Hslide & _).
  assert (Hs : gesture s = emptyGesture /\ didSlide s = Some verdict).
  { unfold s. rewrite run_snoc. cbn [step].
    rewrite (onEnd_pressed props te e _ (now e0)) by assumption.
    cbn [stateOf gesture didSlide]. auto. }
  destruct Hs as [Hg Hd]. split; [assumption|]. split; [assumption|].
  rewrite postGestureClick_eq, Hd. cbn [JS.truthy].
  destruct verdict; reflexivity.
Qed.

Lemma slide_verdict_of_deciding_sample_witness :
  let e0 := touch "touchstart" 0 0 1 100 in
  let a := touch "touchmove" 3 3 1 110 in
  let b := touch "touchmove" 2 (-9) 1 120 in
  let back := touch "touchmove" 0 0 1 130 in
  let lift := touch "touchend" 0 0 0 140 in
  let c := {| closestA := true |} in
  let s :=
    run sampleProps true initial
      ((Start e0 :: map Move ([a] ++ b :: [back])) ++ [End lift]) in
  Forall singleTouch ([a] ++ b :: [back])
  /\ Forall (noLock sampleProps e0) [a]
  /\ lockX sampleProps e0 b || lockY sampleProps e0 b = true
  /\ didSlide s = Some true
  /\ traceOf (postGestureClick sampleProps c s)
     = [ClickPreventDefault c; ClickStopPropagation c].
Proof.
  intros e0 a b back lift c s.
  assert (H1 : Forall singleTouch ([a] ++ b :: [back]))
    by (repeat constructor).
  assert (H2 : Forall (noLock sampleProps e0) [a]) by (repeat constructor).
  assert (H3 : lockX sampleProps e0 b || lockY sampleProps e0 b = true)
    by reflexivity.
  split; [exact H1|]. split; [exact H2|]. split; [exact H3|].
  destruct (slide_verdict_of_deciding_sample sampleProps true initial e0
              [a] b [back] lift c H1 H2 H3) as (_ & Hd & Hclick).
  split; [exact Hd|exact Hclick].
Defined.

(** X13.  Once a sample [m] has decided the axis, which callbacks a later
    sample or the end calls depends on [m] alone, never on the later
    displacement.  If the consumer supplied a move callback for the axis of
    [m], every later single-touch sample calls the generic move callback
    and the move callback of that axis, even a sample back at the start
    point, and never the callback of the other axis; if it did not, no
    later sample calls anything.  The end calls the generic end callback
    and, under the same condition, the end callback of that axis only. *)
Theorem callbacks_follow_deciding_sample
    (props : TouchProps) (te : bool) (s0 : State) (e0 : VKUITouchEvent)
    (pre : list VKUITouchEvent) (m : VKUITouchEvent)
    (post : list VKUITouchEvent) (m' e : VKUITouchEvent) :
  Forall singleTouch (pre ++ m :: post) ->
  Forall (noLock props e0) pre ->
  lockX props e0 m || lockY props e0 m = true ->
  singleTouch m' ->
  let slideX := lockX props e0 m && (onMoveX props || _onMove props) in
  let slideY := lockY props e0 m && (onMoveY props || _onMove props) in
  let s := run props te s0 (Start e0 :: map Move (pre ++ m :: post)) in
  called (traceOf (onMove props te m' s))
  = (if slideX || slideY
     then present [prop (_onMove props) OnMove;
                   guarded (Some slideX) (prop (onMoveX props) OnMoveX);
                   guarded (Some slideY) (prop (onMoveY props) OnMoveY)]
     else [])
  /\ called (traceOf (onEnd props te e s))
     = present [prop (_onEnd props) OnEnd;
                guarded (Some slideY) (prop (onEndY props) OnEndY);
                guarded (Some slideX) (prop (onEndX props) OnEndX)]
  /\ slideX && slideY = false.
Proof.
  intros Hall Hpre Hlock Hm' slideX slideY s.
  destruct (run_decided props te s0 e0 pre m post Hall Hpre Hlock)
    as (_ & Hp & Ht & HsX & HsY & Hs & Hl).
  fold s in Hp, Ht, HsX, HsY, Hs, Hl.
  fold slideX in HsX, Hs. fold slideY in HsY, Hs.
  split; [|split].
  - rewrite (onMove_single props te m' s (now e0)) by assumption.
    cbn [traceOf]. unfold movedTrace.
    destruct (moved_locked_flags props (gesture s) m' Hl) as (-> & -> & ->).
    rewrite HsX, HsY, Hs. cbn [JS.truthy].
    destruct (slideX || slideY).
    + rewrite called_app, called_stopTrace, called_callsFor. reflexivity.
    + reflexivity.
  - rewrite (called_onEnd_pressed props te e s (now e0)) by assumption.
    rewrite HsX, HsY. reflexivity.
  - pose proof (lock_exclusive props e0 m) as Hex.
    unfold slideX, slideY.
    destruct (lockX props e0 m), (lockY props e0 m);
      try discriminate Hex; cbn; rewrite ?andb_false_r; reflexivity.
Qed.

Lemma callbacks_follow_deciding_sample_witness :
  let e0 := touch "touchstart" 0 0 1 100 in
  let a := touch "touchmove" 3 3 1 110 in
  let b := touch "touchmove" 12 4 1 120 in
  let c := touch "touchmove" 12 90 1 130 in
  let back := touch "touchmove" 0 0 1 140 in
  let lift := touch "touchend" 0 0 0 150 in
  let s := run sampleProps true initial (Start e0 :: map Move ([a] ++ b :: [c])) in
  Forall singleTouch ([a] ++ b :: [c])
  /\ Forall (noLock sampleProps e0) [a]
  /\ lockX sampleProps e0 b || lockY sampleProps e0 b = true
  /\ singleTouch back
  /\ called (traceOf (onMove sampleProps true back s)) = [OnMove; OnMoveX]
  /\ called (traceOf (onEnd sampleProps true lift s)) = [OnEnd; OnEndX].
Proof.
  intros e0 a b c back lift s.
  assert (H1 : Forall singleTouch ([a] ++ b :: [c])) by (repeat constructor).
  assert (H2 : Forall (noLock sampleProps e0) [a]) by (repeat constructor).
  assert (H3 : lockX sampleProps e0 b || lockY sampleProps e0 b = true)
    by reflexivity.
  assert (H4 : singleTouch back) by reflexivity.
  split; [exact H1|]. split; [exact H2|]. split; [exact H3|].
  split; [exact H4|].
  destruct (callbacks_follow_deciding_sample sampleProps true initial e0
              [a] b [c] back lift H1 H2 H3 H4) as (Hmove & Hend & _).
  split; [exact Hmove|exact Hend].
Defined.

(** ** Properties of the load state of ImageBase *)

Lemma imageRun_app (p : ImageBaseProps) (xs ys : list ImageEvent) :
  forall v,
    imageRun p v (xs ++ ys)
    = (fst (imageRun p (fst (imageRun p v xs)) ys),
       snd (imageRun p v xs)
       ++ snd (imageRun p (fst (imageRun p v xs)) ys)).
Proof.
  induction xs as [|x xs IH]; intros v; cbn [imageRun app fst snd].
  - destruct (imageRun p v ys) as [v1 tr1]. reflexivity.
  - destruct (imageStep p v x) as [v1 tr1]. rewrite IH.
    destruct (imageRun p v1 xs) as [v2 tr2]. cbn [fst snd].
    rewrite app_assoc. reflexivity.
Qed.

Lemma imageStep_no_source (p : ImageBaseProps) (v : ImageView)
    (ev : ImageEvent) :
  hasSrc p = false ->
  seenLoaded v = loaded (cells v) ->
  imageStep p v ev = (v, []).
Proof.
  intros Hsrc Hseen. unfold imageStep. rewrite Hsrc.
  destruct ev; try reflexivity.
  destruct v as [st seen]. cbn in *. rewrite Hseen. reflexivity.
Qed.

Lemma imageRun_no_source (p : ImageBaseProps) (evs : list ImageEvent) :
  hasSrc p = false ->
  forall v,
    seenLoaded v = loaded (cells v) ->
    imageRun p v evs = (v, []).
Proof.
  intros Hsrc. induction evs as [|ev evs IH]; intros v Hseen;
    cbn [imageRun]; [reflexivity|].
  rewrite imageStep_no_source, IH by assumption. reflexivity.
Qed.

Lemma imageStep_exclusive (p : ImageBaseProps) (v : ImageView)
    (ev : ImageEvent) :
  loaded (cells v) && failed (cells v) = false ->
  loaded (cells (fst (imageStep p v ev)))
  && failed (cells (fst (imageStep p v ev))) = false.
Proof.
  intros Hv. unfold imageStep, handleImageLoad, handleImageError.
  destruct ev, (hasSrc p), (seenLoaded v); cbn; try reflexivity;
    assumption.
Qed.

Lemma imageRun_exclusive (p : ImageBaseProps) (evs : list ImageEvent) :
  forall v,
    loaded (cells v) && failed (cells v) = false ->
    loaded (cells (fst (imageRun p v evs)))
    && failed (cells (fst (imageRun p v evs))) = false.
Proof.
  induction evs as [|ev evs IH]; intros v Hv; cbn [imageRun];
    [assumption|].
  pose proof (imageStep_exclusive p v ev Hv) as Hstep.
  destruct (imageStep p v ev) as [v1 tr1]. cbn [fst] in Hstep.
  specialize (IH v1 Hstep).
  destruct (imageRun p v1 evs) as [v2 tr2]. exact IH.
Qed.

(** X14.  Whatever load and error events the image receives, and
    whenever the component renders between them, [loaded] and [failed] are
    never both set, and the fallback icon is never shown while the image
    counts as loaded.  Without a source there is no image element: no
    event reaches the handlers, the state stays as it was at the start and
    no callback is called. *)
Theorem image_loaded_excludes_failed_and_fallback
    (p : ImageBaseProps) (evs : list ImageEvent) :
  let st := cells (fst (imageRun p imageMounted evs)) in
  loaded st && failed st = false
  /\ needShowFallbackIcon p st && loaded st = false
  /\ (hasSrc p = false -> imageRun p imageMounted evs = (imageMounted, [])).
Proof.
  intros st.
  assert (Hex : loaded st && failed st = false)
    by (apply imageRun_exclusive; reflexivity).
  split; [assumption|]. split.
  - unfold needShowFallbackIcon.
    destruct (hasSrc p) eqn:Hsrc.
    + destruct (loaded st), (failed st); try discriminate Hex; cbn;
        rewrite ?andb_false_r; reflexivity.
    + unfold st. rewrite imageRun_no_source by (assumption || reflexivity).
      cbn. apply andb_false_r.
  - intros Hsrc. apply imageRun_no_source; [assumption|reflexivity].
Qed.

(** X15.  With a source, an error event always leaves the image failed and
    not loaded.  A load event is judged by the handler of the last render:
    if that render had read [loaded] as set, the event is ignored, state
    and callbacks alike, even when an error has been handled since, so
    that the image stays failed until the next render; if it had read
    [loaded] as unset, the event leaves the image loaded and not failed.
    Hence a load event that comes right after a render always leaves the
    image loaded and not failed. *)
Theorem image_state_follows_last_event
    (p : ImageBaseProps) (evs : list ImageEvent) :
  hasSrc p = true ->
  let v := fst (imageRun p imageMounted evs) in
  cells (fst (imageStep p v ImageError)) = {| loaded := false; failed := true |}
  /\ (seenLoaded v = true -> imageStep p v ImageLoad = (v, []))
  /\ (seenLoaded v = false ->
      cells (fst (imageStep p v ImageLoad))
      = {| loaded := true; failed := false |})
  /\ cells (fst (imageRun p imageMounted (evs ++ [ImageRender; ImageLoad])))
     = {| loaded := true; failed := false |}.
Proof.
  intros Hsrc v.
  pose proof (imageRun_exclusive p evs imageMounted eq_refl) as Hex.
  fold v in Hex.
  split; [|split; [|split]].
  - unfold imageStep, handleImageError. rewrite Hsrc. reflexivity.
  - intros Hseen. unfold imageStep, handleImageLoad. rewrite Hsrc, Hseen.
    destruct v as [st seen]. cbn in *. rewrite Hseen. reflexivity.
  - intros Hseen. unfold imageStep, handleImageLoad. rewrite Hsrc, Hseen.
    reflexivity.
  - rewrite imageRun_app. cbn [fst]. fold v.
    cbn [imageRun imageStep]. rewrite Hsrc. unfold handleImageLoad.
    cbn [cells seenLoaded].
    destruct (cells v) as [l f]. cbn in *.
    destruct l; cbn; [|reflexivity].
    cbn in Hex. rewrite Hex. reflexivity.
Qed.

Lemma image_state_follows_last_event_witness :
  let p := {| src := Some "a.png"%string; srcSet := None;
              fallbackIconValid := true; onLoad := true; onError := true |} in
  let evs := [ImageLoad; ImageRender; ImageError] in
  let v := fst (imageRun p imageMounted evs) in
  hasSrc p = true
  /\ cells v = {| loaded := false; failed := true |}
  /\ imageStep p v ImageLoad = (v, [])
  /\ cells (fst (imageRun p imageMounted (evs ++ [ImageRender; ImageLoad])))
     = {| loaded := true; failed := false |}.
Proof.
  intros p evs v.
  assert (H : hasSrc p = true) by reflexivity.
  split; [exact H|]. split; [reflexivity|].
  destruct (image_state_follows_last_event p evs H) as (_ & Hstale & _ & Hlast).
  split; [apply Hstale; reflexivity|exact Hlast].
Defined.

Lemma imageRun_committed_bound (p : ImageBaseProps)
    (evs : list ImageEvent) :
  forall v,
    seenLoaded v = loaded (cells v) ->
    (List.length (filter isCallOnLoad (snd (imageRun p v (committed evs))))
     <= (if loaded (cells v) then 0 else 1)
        + List.length (filter isImageError evs))%nat.
Proof.
  induction evs as [|ev evs IH]; intros v Hseen.
  - cbn. lia.
  - change (committed (ev :: evs)) with (ev :: ImageRender :: committed evs).
    cbn [imageRun].
    destruct (imageStep p v ev) as [v1 tr1] eqn:Hstep.
    cbn [imageStep].
    specialize (IH {| cells := cells v1; seenLoaded := loaded (cells v1) |}
                  eq_refl).
    destruct (imageRun p _ (committed evs)) as [v2 tr2].
    cbn [snd cells] in *. rewrite filter_app, length_app. cbn [app].
    unfold imageStep, handleImageLoad, handleImageError in Hstep.
    rewrite Hseen in Hstep.
    destruct ev, (hasSrc p), (loaded (cells v)) eqn:Hl, (onLoad p),
      (onError p); inversion Hstep; subst; cbn in *;
      try rewrite Hl in IH; lia.
Qed.

(** X16.  When the component renders after every event, [onLoad] is not
    called again for an image that already counts as loaded: the number of
    calls of [onLoad] is at most one more than the number of error events.
    Without a render in between it is called again: two load events handled
    under the first render call it twice. *)
Theorem image_onLoad_once_per_load
    (p : ImageBaseProps) (evs : list ImageEvent) :
  (List.length
     (filter isCallOnLoad (snd (imageRun p imageMounted (committed evs))))
   <= 1 + List.length (filter isImageError evs))%nat
  /\ (hasSrc p = true -> onLoad p = true ->
      snd (imageRun p imageMounted [ImageLoad; ImageLoad])
      = [CallOnLoad; CallOnLoad]).
Proof.
  split.
  - exact (imageRun_committed_bound p evs imageMounted eq_refl).
  - intros Hsrc Hon. cbn. unfold handleImageLoad. rewrite Hsrc. cbn.
    rewrite Hon. reflexivity.
Qed.

Lemma checkLoadStatusRuns_checked (rs : list EffectRun) :
  checkLoadStatusRuns true rs = (true, []).
Proof.
  induction rs as [|r rs IH]; cbn; [reflexivity|].
  rewrite IH. reflexivity.
Qed.

(** X17.  The effect that dispatches a load event for an image that was
    complete before React attached looks at the image once only: over any
    number of runs, only the first run can dispatch, and it does so exactly
    when the image element is there, complete and not yet counted as
    loaded; an image that becomes complete later is not noticed by later
    runs. *)
Theorem load_status_checked_once (r : EffectRun) (rs : list EffectRun) :
  checkLoadStatusRuns false (r :: rs)
  = (true,
     if imgPresent r && complete r && negb (loadedNow r)
     then [DispatchLoad] else []).
Proof.
  cbn. rewrite checkLoadStatusRuns_checked, app_nil_r. reflexivity.
Qed.
